(** * Treatment Evaluation: implant deviation and overlap analysis

    A shallow embedding of [treatment_evaluation.py]: the vector utilities,
    the analytic truncated-cone volume, the frustum builder
    [create_truncated_cone] and the orchestration [analyze_implant].

    Numeric model.  The specification types every coordinate, radius and
    result as a real number, and so does this development: a Python float is
    a real of [R], [np.linalg.norm] is the Euclidean norm, [math.acos] is
    [acos], [math.pi] is [PI].  Rounding, overflow and NaN are outside the
    model.

    Host model.  Blender's mesh primitive is represented by the arguments
    the code passes to [bpy.ops.mesh.primitive_cone_add] together with the
    rotation the code assigns afterwards.  The signed volume that bmesh
    computes for the boolean intersection of two such objects is a parameter
    of the analysis.  A marker object is its world matrix and its bounding
    box.  The texts of results and reports are kept as the values they are
    formatted from.  The scene module follows which objects exist and which
    are linked to the collection.

    Not embedded: [OBJECT_OT_RunSingleImplantSlot], whose index property is
    declared by assignment and not by annotation, the panels and the
    registration. *)

From Stdlib Require Import Reals Lra Lia ZArith List String Bool.
Import ListNotations.

Open Scope R_scope.

(** ** Comparisons of floats as booleans *)

Definition Reqb (x y : R) : bool := if Req_dec_T x y then true else false.
Definition Rleb (x y : R) : bool := if Rle_dec x y then true else false.
Definition Rgtb (x y : R) : bool := if Rgt_dec x y then true else false.

(** ** MATH UTILITIES *)

Module Vec.

(** A three-component [np.array]. *)
Record t : Type := mk { x : R; y : R; z : R }.

Definition zero : t := mk 0 0 0.

(** [a + b], [a - b], [-a], [a / s] on arrays, component by component. *)
Definition add (a b : t) : t := mk (x a + x b) (y a + y b) (z a + z b).
Definition sub (a b : t) : t := mk (x a - x b) (y a - y b) (z a - z b).
Definition neg (a : t) : t := mk (- x a) (- y a) (- z a).
Definition div (a : t) (s : R) : t := mk (x a / s) (y a / s) (z a / s).

(** [np.dot], [np.cross] and [np.linalg.norm]. *)
Definition dot (a b : t) : R := x a * x b + y a * y b + z a * z b.
Definition cross (a b : t) : t :=
  mk (y a * z b - z a * y b) (z a * x b - x a * z b) (x a * y b - y a * x b).
Definition norm (a : t) : R := sqrt (dot a a).

End Vec.

Abbreviation vec := Vec.t.

(** [np.clip(x, lo, hi)] is [minimum(maximum(x, lo), hi)]. *)
Definition clip (x lo hi : R) : R := Rmin (Rmax x lo) hi.

(** [math.degrees(x)] multiplies by the constant [180 / pi]. *)
Definition degrees (x : R) : R := x * (180 / PI).

(** [np.isclose(a, b, rtol, atol)] on finite scalars, and [np.allclose] on
    three-component arrays.  The code passes [atol] only, so [rtol] keeps
    numpy's default. *)
Definition default_rtol : R := 1 / 100000.

Definition isclose (a b rtol atol : R) : bool :=
  Rleb (Rabs (a - b)) (atol + rtol * Rabs b).

Definition allclose (a b : vec) (atol : R) : bool :=
  isclose (Vec.x a) (Vec.x b) default_rtol atol
  && isclose (Vec.y a) (Vec.y b) default_rtol atol
  && isclose (Vec.z a) (Vec.z b) default_rtol atol.

Definition vector_components (p1 p2 : vec) : vec := Vec.sub p2 p1.

Definition distance (p1 p2 : vec) : R := Vec.norm (vector_components p1 p2).

Definition angle_between_vectors (v1 v2 : vec) : R :=
  let norm_v1 := Vec.norm v1 in
  let norm_v2 := Vec.norm v2 in
  if Reqb norm_v1 0 || Reqb norm_v2 0 then 0
  else
    let cos_theta := Vec.dot v1 v2 / (norm_v1 * norm_v2) in
    let cos_theta := clip cos_theta (-1) 1 in
    degrees (acos cos_theta).

Definition cylinder_volume (r_top r_bottom h : R) : R :=
  (1 / 3) * PI * h * (r_top ^ 2 + r_top * r_bottom + r_bottom ^ 2).

(** ** MESH-BASED OVERLAP CALCULATION *)

(** The orientation of a Blender object as the code leaves it: a new
    primitive is unrotated, and the code may then switch it to axis-angle
    mode with [(angle, x, y, z)]. *)
Inductive rotation : Type :=
| Unrotated
| AxisAngle (angle ax ay az : R).

(** The object made by [primitive_cone_add] and then renamed and rotated. *)
Record cone_object : Type := mkCone {
  obj_name : string;
  vertices : nat;
  radius1 : R;
  radius2 : R;
  depth : R;
  location : vec;
  obj_rotation : rotation
}.

Definition tol : R := 1 / 1000000.

Definition up : vec := Vec.mk 0 0 1.
Definition down : vec := Vec.mk 0 0 (-1).

(** The block of [create_truncated_cone] under "Align with direction
    vector": the rotation the object ends up with, for the normalised
    direction.  The first branch is [pass] and the last one only prints a
    warning, so both leave the new object unrotated. *)
Definition align (direction_norm : vec) : rotation :=
  if allclose direction_norm up tol then Unrotated
  else if allclose direction_norm down tol then AxisAngle PI 1 0 0
  else
    let axis := Vec.cross up direction_norm in
    let axis_length := Vec.norm axis in
    if Rgtb axis_length tol then
      let axis_norm := Vec.div axis axis_length in
      let angle := acos (clip (Vec.dot up direction_norm) (-1) 1) in
      AxisAngle angle (Vec.x axis_norm) (Vec.y axis_norm) (Vec.z axis_norm)
    else Unrotated.

(** [None] is Python's [None], returned for a zero-height cone. *)
Definition create_truncated_cone
    (name : string) (base_pos apex_pos : vec) (base_radius apex_radius : R)
    : option cone_object :=
  let direction := Vec.sub apex_pos base_pos in
  let height := Vec.norm direction in
  if Reqb height 0 then None
  else
    let center := Vec.div (Vec.add base_pos apex_pos) 2 in
    let direction_norm := Vec.div direction height in
    Some (mkCone name 64 base_radius apex_radius height center
                 (align direction_norm)).

(** ** OPERATORS *)

(** The seven quantities that [analyze_implant] formats into its result
    string, in the order of the lines of that string. *)
Record analysis_report : Type := mkReport {
  base_dev_vec : vec;
  base_dev_dist : R;
  apex_dev_vec : vec;
  apex_dev_dist : R;
  ang_dev : R;
  overlap_vol : R;
  overlap_pct : R
}.

Section Analysis.

(** [bm.calc_volume()] of the mesh left by the INTERSECT modifier applied
    to copies of the two objects. *)
Variable intersect_calc_volume : cone_object -> cone_object -> R.

Definition boolean_intersection_volume (obj_a obj_b : cone_object) : R :=
  let volume := intersect_calc_volume obj_a obj_b in
  Rabs volume.

Definition analyze_implant
    (pb pa rb ra : vec) (r_ptop r_pbot r_rtop r_rbot : R)
    : analysis_report :=
  let base_dev_vec := vector_components pb rb in
  let apex_dev_vec := vector_components pa ra in
  let base_dev_dist := Vec.norm base_dev_vec in
  let apex_dev_dist := Vec.norm apex_dev_vec in
  let ang_dev :=
    angle_between_vectors (vector_components pb pa)
                          (vector_components rb ra) in
  let planned_obj :=
    create_truncated_cone "PlannedImplantTemp" pb pa r_pbot r_ptop in
  let real_obj :=
    create_truncated_cone "RealImplantTemp" rb ra r_rbot r_rtop in
  let overlap_vol :=
    match planned_obj, real_obj with
    | Some p, Some r => boolean_intersection_volume p r
    | _, _ => 0
    end in
  let planned_vol := cylinder_volume r_ptop r_pbot (distance pb pa) in
  let overlap_pct :=
    if Rgtb planned_vol 0 then 100 * overlap_vol / planned_vol else 0 in
  mkReport base_dev_vec base_dev_dist apex_dev_vec apex_dev_dist
           ang_dev overlap_vol overlap_pct.

End Analysis.

(** ** The host layer: marker objects, property groups and operators *)

Definition Rltb (x y : R) : bool := if Rlt_dec x y then true else false.

(** A 4x4 [mathutils.Matrix], row by row. *)
Record matrix_row : Type := mkRow { c0 : R; c1 : R; c2 : R; c3 : R }.
Record matrix : Type :=
  mkMatrix { row0 : matrix_row; row1 : matrix_row;
             row2 : matrix_row; row3 : matrix_row }.

Definition row_apply (r : matrix_row) (v : vec) : R :=
  c0 r * Vec.x v + c1 r * Vec.y v + c2 r * Vec.z v + c3 r * 1.

(** [m @ v] for a 4x4 matrix and a 3D vector: the vector is extended with
    a fourth component 1 and the result keeps the first three rows. *)
Definition matmul_vec (m : matrix) (v : vec) : vec :=
  Vec.mk (row_apply (row0 m) v) (row_apply (row1 m) v) (row_apply (row2 m) v).

(** [obj.bound_box], eight corners in the object's local frame. *)
Record bound_box8 : Type := mkBox {
  corner0 : vec; corner1 : vec; corner2 : vec; corner3 : vec;
  corner4 : vec; corner5 : vec; corner6 : vec; corner7 : vec
}.

Definition corners (b : bound_box8) : list vec :=
  [corner0 b; corner1 b; corner2 b; corner3 b;
   corner4 b; corner5 b; corner6 b; corner7 b].

(** What the operators read of a selected marker object. *)
Record marker_object : Type := mkMarker {
  matrix_world : matrix;
  bound_box : bound_box8
}.

(** [sum(vectors, Vector())]: the start value is the zero vector and the
    items are added from the left. *)
Definition vector_sum (vs : list vec) : vec := fold_left Vec.add vs Vec.zero.

(** The local function of the three run operators. *)
Definition get_mesh_center (obj : marker_object) : vec :=
  let bbox_corners :=
    map (fun corner => matmul_vec (matrix_world obj) corner)
        (corners (bound_box obj)) in
  let center := Vec.div (vector_sum bbox_corners) (INR (List.length bbox_corners)) in
  center.

(** The text kept in a [result] property.  The analysis text is formatted
    from a report; the two other messages carry the implant number they
    print. *)
Inductive result_text : Type :=
| EmptyText
| ErrorSelectAll (implant_number : nat)
| WarningVeryClose (implant_number : nat)
| AnalysisText (report : analysis_report).

(** [SingleImplantProperties] and [ImplantSlotProperties] declare the same
    nine properties with the same defaults. *)
Module Props.

Record t : Type := mk {
  planned_base : option marker_object;
  planned_apex : option marker_object;
  real_base : option marker_object;
  real_apex : option marker_object;
  r_planned_top : R;
  r_planned_bottom : R;
  r_real_top : R;
  r_real_bottom : R;
  result : result_text
}.

Definition default : t := mk None None None None 2 2 2 2 EmptyText.

Definition set_result (p : t) (text : result_text) : t :=
  mk (planned_base p) (planned_apex p) (real_base p) (real_apex p)
     (r_planned_top p) (r_planned_bottom p) (r_real_top p) (r_real_bottom p)
     text.

End Props.

Abbreviation SingleImplantProperties := Props.t.
Abbreviation ImplantSlotProperties := Props.t.

(** What an operator hands back: the set it returns and the calls it made
    to [self.report]. *)
Inductive operator_status : Type := FINISHED | CANCELLED.

Inductive report_level : Type := ERROR | WARNING | INFO.

Inductive report_message : Type :=
| SelectAll4Spheres
| PlannedVeryClose (planned_distance : R)
| RealVeryClose (real_distance : R)
| PlannedAtOrigin
| RemovedImplant (implant_number : Z)
| InvalidImplantIndex (implant_index : Z).

Definition operator_report : Type := (report_level * report_message)%type.

Definition min_distance : R := 1 / 10.

Section Operators.

Variable intersect_calc_volume : cone_object -> cone_object -> R.

(** [OBJECT_OT_RunSingleImplant.execute]: the new properties, the reports
    and the returned status. *)
Definition run_single_implant_execute (props : SingleImplantProperties)
    : SingleImplantProperties * list operator_report * operator_status :=
  match Props.planned_base props, Props.planned_apex props,
        Props.real_base props, Props.real_apex props with
  | Some planned_base, Some planned_apex, Some real_base, Some real_apex =>
      let pb := get_mesh_center planned_base in
      let pa := get_mesh_center planned_apex in
      let rb := get_mesh_center real_base in
      let ra := get_mesh_center real_apex in
      let planned_distance := Vec.norm (Vec.sub pa pb) in
      let real_distance := Vec.norm (Vec.sub ra rb) in
      let reports :=
        (if Rltb planned_distance min_distance
         then [(WARNING, PlannedVeryClose planned_distance)] else [])
        ++ (if Rltb real_distance min_distance
            then [(WARNING, RealVeryClose real_distance)] else [])
        ++ (if allclose pb Vec.zero (1 / 10) && allclose pa Vec.zero (1 / 10)
            then [(WARNING, PlannedAtOrigin)] else []) in
      (Props.set_result props
         (AnalysisText
            (analyze_implant intersect_calc_volume pb pa rb ra
               (Props.r_planned_top props) (Props.r_planned_bottom props)
               (Props.r_real_top props) (Props.r_real_bottom props))),
       reports, FINISHED)
  | _, _, _, _ => (props, [(ERROR, SelectAll4Spheres)], CANCELLED)
  end.

(** One turn of the loop of [OBJECT_OT_RunMultipleImplants.execute], for
    the slot at position [i]. *)
Definition run_multiple_implants_slot (i : nat) (slot : ImplantSlotProperties)
    : ImplantSlotProperties :=
  match Props.planned_base slot, Props.planned_apex slot,
        Props.real_base slot, Props.real_apex slot with
  | Some planned_base, Some planned_apex, Some real_base, Some real_apex =>
      let pb := get_mesh_center planned_base in
      let pa := get_mesh_center planned_apex in
      let rb := get_mesh_center real_base in
      let ra := get_mesh_center real_apex in
      let planned_distance := Vec.norm (Vec.sub pa pb) in
      let real_distance := Vec.norm (Vec.sub ra rb) in
      if Rltb planned_distance min_distance
         || Rltb real_distance min_distance
      then Props.set_result slot (WarningVeryClose (i + 1))
      else
        Props.set_result slot
          (AnalysisText
             (analyze_implant intersect_calc_volume pb pa rb ra
                (Props.r_planned_top slot) (Props.r_planned_bottom slot)
                (Props.r_real_top slot) (Props.r_real_bottom slot)))
  | _, _, _, _ => Props.set_result slot (ErrorSelectAll (i + 1))
  end.

Fixpoint run_multiple_implants_from (i : nat)
    (slots : list ImplantSlotProperties) : list ImplantSlotProperties :=
  match slots with
  | [] => []
  | slot :: rest =>
      run_multiple_implants_slot i slot
      :: run_multiple_implants_from (S i) rest
  end.

(** [OBJECT_OT_RunMultipleImplants.execute] on [scene.multiple_implants]. *)
Definition run_multiple_implants_execute
    (multiple_implants : list ImplantSlotProperties)
    : list ImplantSlotProperties * operator_status :=
  (run_multiple_implants_from 0 multiple_implants, FINISHED).

End Operators.

(** [OBJECT_OT_AddImplant.execute]: [add()] appends a slot with the
    declared defaults. *)
Definition collection_add (implants : list ImplantSlotProperties)
    : list ImplantSlotProperties :=
  implants ++ [Props.default].

Definition add_implant_execute (multiple_implants : list ImplantSlotProperties)
    : list ImplantSlotProperties * operator_status :=
  (collection_add multiple_implants, FINISHED).

(** [remove(index)] of a collection, for an index in range. *)
Definition collection_remove (index : nat)
    (implants : list ImplantSlotProperties) : list ImplantSlotProperties :=
  firstn index implants ++ skipn (S index) implants.

(** [OBJECT_OT_RemoveImplant.execute]. *)
Definition remove_implant_execute (implant_index : Z)
    (implants : list ImplantSlotProperties)
    : list ImplantSlotProperties * list operator_report * operator_status :=
  if ((0 <=? implant_index)%Z
      && (implant_index <? Z.of_nat (List.length implants))%Z)%bool
  then (collection_remove (Z.to_nat implant_index) implants,
        [(INFO, RemovedImplant (implant_index + 1)%Z)], FINISHED)
  else (implants, [(ERROR, InvalidImplantIndex implant_index)], FINISHED).

(** [init_properties] on [scene.multiple_implants]. *)
Definition init_properties (multiple_implants : list ImplantSlotProperties)
    : list ImplantSlotProperties :=
  if (List.length multiple_implants =? 0)%nat
  then Nat.iter 6 collection_add multiple_implants
  else multiple_implants.

(** ** The scene as the mesh functions change it

    The functions above give the values the code computes.  The ones in
    this module also follow the objects the code creates and removes:
    [bpy.data.objects] is a list of objects with their identity, and
    [bpy.context.collection.objects] is the list of the identities that are
    linked. *)
Module Scene.

Record t : Type := mk {
  objects : list (nat * cone_object);
  linked : list nat;
  next_id : nat
}.

(** A new object datablock ([primitive_cone_add] makes one, [copy()] makes
    one); it is not linked yet. *)
Definition new_object (s : t) (obj : cone_object) : t * nat :=
  (mk (objects s ++ [(next_id s, obj)]) (linked s) (S (next_id s)),
   next_id s).

(** [bpy.context.collection.objects.link(obj)]. *)
Definition link (s : t) (id : nat) : t :=
  mk (objects s) (linked s ++ [id]) (next_id s).

(** [bpy.data.objects.remove(obj, do_unlink=True)]. *)
Definition remove (s : t) (id : nat) : t :=
  mk (filter (fun entry => negb (fst entry =? id)%nat) (objects s))
     (filter (fun i => negb (i =? id)%nat) (linked s))
     (next_id s).

(** The builder: when it returns an object, [primitive_cone_add] has
    created it and linked it to the collection. *)
Definition create_truncated_cone (s : t)
    (name : string) (base_pos apex_pos : vec) (base_radius apex_radius : R)
    : t * option (nat * cone_object) :=
  match create_truncated_cone name base_pos apex_pos base_radius apex_radius
  with
  | None => (s, None)
  | Some obj =>
      let (s1, id) := new_object s obj in
      (link s1 id, Some (id, obj))
  end.

Section WithVolume.

Variable intersect_calc_volume : cone_object -> cone_object -> R.

Definition boolean_intersection_volume (s : t)
    (obj_a obj_b : nat * cone_object) : t * R :=
  let (s, a_copy) := new_object s (snd obj_a) in
  let (s, b_copy) := new_object s (snd obj_b) in
  let s := link s a_copy in
  let s := link s b_copy in
  let (s, bool_obj) := new_object s (snd obj_a) in
  let s := link s bool_obj in
  let volume := intersect_calc_volume (snd obj_a) (snd obj_b) in
  let s := remove s a_copy in
  let s := remove s b_copy in
  let s := remove s bool_obj in
  (s, Rabs volume).

Definition analyze_implant (s : t)
    (pb pa rb ra : vec) (r_ptop r_pbot r_rtop r_rbot : R)
    : t * analysis_report :=
  let base_dev_vec := vector_components pb rb in
  let apex_dev_vec := vector_components pa ra in
  let base_dev_dist := Vec.norm base_dev_vec in
  let apex_dev_dist := Vec.norm apex_dev_vec in
  let ang_dev :=
    angle_between_vectors (vector_components pb pa)
                          (vector_components rb ra) in
  let (s, planned_obj) :=
    create_truncated_cone s "PlannedImplantTemp" pb pa r_pbot r_ptop in
  let (s, real_obj) :=
    create_truncated_cone s "RealImplantTemp" rb ra r_rbot r_rtop in
  let (s, overlap_vol) :=
    match planned_obj, real_obj with
    | Some p, Some r => boolean_intersection_volume s p r
    | _, _ => (s, 0)
    end in
  let planned_vol := cylinder_volume r_ptop r_pbot (distance pb pa) in
  let overlap_pct :=
    if Rgtb planned_vol 0 then 100 * overlap_vol / planned_vol else 0 in
  (s, mkReport base_dev_vec base_dev_dist apex_dev_vec apex_dev_dist
               ang_dev overlap_vol overlap_pct).

End WithVolume.

(** Every identity in use is below the next one to be given out. *)
Definition well_formed (s : t) : Prop :=
  Forall (fun entry => (fst entry < next_id s)%nat) (objects s)
  /\ Forall (fun i => (i < next_id s)%nat) (linked s).

Definition empty : t := mk [] [] 0.

End Scene.

(** The objects a call of the builder leaves behind: the one it returns,
    if any. *)
Definition built (obj : option cone_object) : list cone_object :=
  match obj with
  | Some o => [o]
  | None => []
  end.

(** ** Sample inputs

    A frustum whose axis is tilted away from the reference axis by a little
    more than a thousandth of a radian: its length is the integer 2002226
    and the cosine of its angle with the reference axis is
    [2002224 / 2002226], less than [1e-6] below 1. *)

Definition tilted_base : vec := Vec.mk 0 0 0.
Definition tilted_apex : vec := Vec.mk 2830 0 2002224.
Definition tilted_dir : vec := Vec.mk (2830 / 2002226) 0 (2002224 / 2002226).

(** Two analyses with the same real implant base.  In the first the planned
    base and apex coincide, so the planned frustum cannot be built.  In the
    second both frustums are built, one 5 mm beside the other with radius
    2 mm each, and the intersection mesh is empty. *)

Definition empty_intersection : cone_object -> cone_object -> R :=
  fun _ _ => 0.

Definition origin : vec := Vec.mk 0 0 0.
Definition planned_apex_ok : vec := Vec.mk 0 0 1.
Definition real_base : vec := Vec.mk 5 0 0.
Definition real_apex_1 : vec := Vec.mk 5 0 1.
Definition real_apex_2 : vec := Vec.mk 5 0 2.

Definition side_by_side_report : analysis_report :=
  mkReport (Vec.mk 5 0 0) 5 (Vec.mk 5 0 1) (sqrt 26) 0 0 0.

(** A marker whose mesh is a cube of side 2 around a point and whose
    world matrix is the identity, and properties with four such markers
    and the default radii. *)

Definition identity_matrix : matrix :=
  mkMatrix (mkRow 1 0 0 0) (mkRow 0 1 0 0) (mkRow 0 0 1 0) (mkRow 0 0 0 1).

Definition cube_marker (c : vec) : marker_object :=
  mkMarker identity_matrix
    (mkBox (Vec.mk (Vec.x c - 1) (Vec.y c - 1) (Vec.z c - 1))
           (Vec.mk (Vec.x c - 1) (Vec.y c - 1) (Vec.z c + 1))
           (Vec.mk (Vec.x c - 1) (Vec.y c + 1) (Vec.z c + 1))
           (Vec.mk (Vec.x c - 1) (Vec.y c + 1) (Vec.z c - 1))
           (Vec.mk (Vec.x c + 1) (Vec.y c - 1) (Vec.z c - 1))
           (Vec.mk (Vec.x c + 1) (Vec.y c - 1) (Vec.z c + 1))
           (Vec.mk (Vec.x c + 1) (Vec.y c + 1) (Vec.z c + 1))
           (Vec.mk (Vec.x c + 1) (Vec.y c + 1) (Vec.z c - 1))).

Definition props_with_markers (pb pa rb ra : vec) : Props.t :=
  Props.mk (Some (cube_marker pb)) (Some (cube_marker pa))
           (Some (cube_marker rb)) (Some (cube_marker ra))
           2 2 2 2 EmptyText.

(** ** Basic facts about the comparisons and the vector operations *)

Lemma Reqb_true_iff (x y : R) : Reqb x y = true <-> x = y.
Proof. unfold Reqb. destruct (Req_dec_T x y); split; congruence. Qed.

Lemma Reqb_false_iff (x y : R) : Reqb x y = false <-> x <> y.
Proof. unfold Reqb. destruct (Req_dec_T x y); split; congruence. Qed.

Lemma Rleb_true_iff (x y : R) : Rleb x y = true <-> x <= y.
Proof. unfold Rleb. destruct (Rle_dec x y); split; (congruence || tauto). Qed.

Lemma Rleb_false_iff (x y : R) : Rleb x y = false <-> y < x.
Proof.
  unfold Rleb. destruct (Rle_dec x y); split; intros; try congruence; lra.
Qed.

Lemma Rgtb_true_iff (x y : R) : Rgtb x y = true <-> y < x.
Proof.
  unfold Rgtb. destruct (Rgt_dec x y); split; intros; try congruence; lra.
Qed.

Lemma Rgtb_false_iff (x y : R) : Rgtb x y = false <-> x <= y.
Proof.
  unfold Rgtb. destruct (Rgt_dec x y); split; intros; try congruence; lra.
Qed.

Lemma sqrt_of_square (s a : R) : 0 <= a -> s = a * a -> sqrt s = a.
Proof. intros Ha ->. now apply sqrt_square. Qed.

Lemma dot_comm (a b : vec) : Vec.dot a b = Vec.dot b a.
Proof. unfold Vec.dot. ring. Qed.

Lemma dot_self_nonneg (a : vec) : 0 <= Vec.dot a a.
Proof. unfold Vec.dot. nra. Qed.

Lemma norm_nonneg (a : vec) : 0 <= Vec.norm a.
Proof. apply sqrt_pos. Qed.

Lemma norm_zero : Vec.norm Vec.zero = 0.
Proof. apply sqrt_of_square; [lra | unfold Vec.dot; simpl; ring]. Qed.

Lemma norm_eq_0_iff (a : vec) : Vec.norm a = 0 <-> a = Vec.zero.
Proof.
  split.
  - intros H. apply sqrt_eq_0 in H; [| apply dot_self_nonneg].
    destruct a as [ax ay az]. unfold Vec.dot in H. simpl in H.
    assert (ax = 0) by nra. assert (ay = 0) by nra. assert (az = 0) by nra.
    subst. reflexivity.
  - intros ->. apply norm_zero.
Qed.

Lemma norm_neg (a : vec) : Vec.norm (Vec.neg a) = Vec.norm a.
Proof. unfold Vec.norm. f_equal. unfold Vec.dot. simpl. ring. Qed.

Lemma sub_self (p : vec) : Vec.sub p p = Vec.zero.
Proof. unfold Vec.sub, Vec.zero. f_equal; ring. Qed.

Lemma sub_eq_zero_iff (p q : vec) : Vec.sub p q = Vec.zero <-> p = q.
Proof.
  split.
  - destruct p, q. unfold Vec.sub, Vec.zero. simpl. intros H.
    injection H as Hx Hy Hz. f_equal; lra.
  - intros ->. apply sub_self.
Qed.

Lemma distance_eq_0_iff (p1 p2 : vec) : distance p1 p2 = 0 <-> p1 = p2.
Proof.
  unfold distance, vector_components.
  rewrite norm_eq_0_iff, sub_eq_zero_iff. split; congruence.
Qed.

Lemma clip_bounds (x : R) : -1 <= clip x (-1) 1 <= 1.
Proof.
  unfold clip, Rmin, Rmax.
  destruct (Rle_dec x (-1)); destruct (Rle_dec _ 1); lra.
Qed.

Lemma clip_id (x : R) : -1 <= x <= 1 -> clip x (-1) 1 = x.
Proof.
  intros H. unfold clip, Rmin, Rmax.
  destruct (Rle_dec x (-1)); destruct (Rle_dec _ 1); lra.
Qed.

(** ** Vector utilities *)

(** The angle is symmetric in its arguments, whatever the vectors are. *)
Lemma angle_between_vectors_comm (v1 v2 : vec) :
  angle_between_vectors v1 v2 = angle_between_vectors v2 v1.
Proof.
  unfold angle_between_vectors.
  rewrite (orb_comm (Reqb (Vec.norm v1) 0)).
  rewrite (dot_comm v1 v2), (Rmult_comm (Vec.norm v1)).
  reflexivity.
Qed.

Lemma degrees_acos_range (c : R) : 0 <= degrees (acos c) <= 180.
Proof.
  unfold degrees. pose proof (acos_bound c) as [Hlo Hhi].
  pose proof PI_RGT_0 as Hpi.
  assert (Hk : 0 < 180 / PI) by (apply Rdiv_lt_0_compat; lra).
  split.
  - apply Rmult_le_pos; lra.
  - replace 180 with (PI * (180 / PI)) at 2 by (field; lra).
    apply Rmult_le_compat_r; lra.
Qed.

Lemma angle_between_vectors_range (v1 v2 : vec) :
  0 <= angle_between_vectors v1 v2 <= 180.
Proof.
  unfold angle_between_vectors.
  destruct (Reqb (Vec.norm v1) 0 || Reqb (Vec.norm v2) 0).
  - lra.
  - apply degrees_acos_range.
Qed.

Lemma angle_between_vectors_zero_length (v1 v2 : vec) :
  Vec.norm v1 = 0 \/ Vec.norm v2 = 0 ->
  angle_between_vectors v1 v2 = 0.
Proof.
  intros H. unfold angle_between_vectors.
  destruct H as [H | H]; apply Reqb_true_iff in H; rewrite H.
  - reflexivity.
  - now rewrite orb_true_r.
Qed.

(** C6: when at least one of the two vectors has zero length,
    [angle_between_vectors] returns [0.0]; no failure is possible. *)
Theorem C6_zero_length_angle_is_zero (v1 v2 : vec) :
  Vec.norm v1 = 0 \/ Vec.norm v2 = 0 ->
  angle_between_vectors v1 v2 = 0.
Proof. apply angle_between_vectors_zero_length. Qed.

Lemma C6_witness :
  angle_between_vectors Vec.zero (Vec.mk 1 2 3) = 0.
Proof.
  apply C6_zero_length_angle_is_zero. left. exact norm_zero.
Defined.

(** C7: for non-zero, non-parallel vectors the angle does not depend on the
    order of the arguments and lies between 0 and 180 degrees. *)
Theorem C7_angle_symmetric_and_bounded (v1 v2 : vec) :
  v1 <> Vec.zero -> v2 <> Vec.zero -> Vec.cross v1 v2 <> Vec.zero ->
  angle_between_vectors v1 v2 = angle_between_vectors v2 v1
  /\ 0 <= angle_between_vectors v1 v2 <= 180.
Proof.
  intros _ _ _. split.
  - apply angle_between_vectors_comm.
  - apply angle_between_vectors_range.
Qed.

Lemma vec_neq_by_x (a b : vec) : Vec.x a <> Vec.x b -> a <> b.
Proof. intros H E. apply H. now rewrite E. Qed.

Lemma vec_neq_by_y (a b : vec) : Vec.y a <> Vec.y b -> a <> b.
Proof. intros H E. apply H. now rewrite E. Qed.

Lemma vec_neq_by_z (a b : vec) : Vec.z a <> Vec.z b -> a <> b.
Proof. intros H E. apply H. now rewrite E. Qed.

Lemma C7_witness :
  angle_between_vectors (Vec.mk 1 0 0) (Vec.mk 0 1 0)
  = angle_between_vectors (Vec.mk 0 1 0) (Vec.mk 1 0 0)
  /\ 0 <= angle_between_vectors (Vec.mk 1 0 0) (Vec.mk 0 1 0) <= 180.
Proof.
  apply C7_angle_symmetric_and_bounded.
  - apply vec_neq_by_x. simpl. lra.
  - apply vec_neq_by_y. simpl. lra.
  - apply vec_neq_by_z. simpl. lra.
Defined.



(** C9: swapping the two points negates the difference vector and leaves
    the distance unchanged. *)
Theorem C9_vector_components_antisymmetric (p1 p2 : vec) :
  vector_components p1 p2 = Vec.neg (vector_components p2 p1)
  /\ distance p1 p2 = distance p2 p1.
Proof.
  assert (E : vector_components p1 p2 = Vec.neg (vector_components p2 p1)).
  { unfold vector_components, Vec.neg, Vec.sub. simpl. f_equal; ring. }
  split; [exact E |].
  unfold distance. rewrite E. apply norm_neg.
Qed.



(** ** The frustum builder *)

Lemma isclose_true_iff (a b rtol atol : R) :
  isclose a b rtol atol = true <-> Rabs (a - b) <= atol + rtol * Rabs b.
Proof. apply Rleb_true_iff. Qed.

Lemma allclose_up_iff (d : vec) :
  allclose d up tol = true <->
  Rabs (Vec.x d) <= tol /\ Rabs (Vec.y d) <= tol
  /\ Rabs (Vec.z d - 1) <= tol + default_rtol.
Proof.
  unfold allclose. rewrite !andb_true_iff, !isclose_true_iff. simpl.
  rewrite Rabs_R0, Rabs_R1, !Rminus_0_r, Rmult_0_r, Rplus_0_r, Rmult_1_r.
  tauto.
Qed.

Lemma allclose_down_iff (d : vec) :
  allclose d down tol = true <->
  Rabs (Vec.x d) <= tol /\ Rabs (Vec.y d) <= tol
  /\ Rabs (Vec.z d + 1) <= tol + default_rtol.
Proof.
  unfold allclose. rewrite !andb_true_iff, !isclose_true_iff. simpl.
  assert (E : Rabs (-1) = 1) by (unfold Rabs; destruct Rcase_abs; lra).
  rewrite Rabs_R0, E, !Rminus_0_r, Rmult_0_r, Rplus_0_r, Rmult_1_r.
  replace (Vec.z d - -1) with (Vec.z d + 1) by ring.
  tauto.
Qed.

Lemma align_up : align up = Unrotated.
Proof.
  unfold align.
  replace (allclose up up tol) with true; [reflexivity |].
  symmetry. apply allclose_up_iff. simpl.
  replace (1 - 1) with 0 by ring. rewrite Rabs_R0.
  unfold tol, default_rtol. lra.
Qed.

Lemma align_down : align down = AxisAngle PI 1 0 0.
Proof.
  unfold align.
  replace (allclose down up tol) with false.
  - replace (allclose down down tol) with true; [reflexivity |].
    symmetry. apply allclose_down_iff. simpl.
    replace (-1 + 1) with 0 by ring. rewrite Rabs_R0.
    unfold tol, default_rtol. lra.
  - symmetry. apply not_true_is_false. intros H.
    apply allclose_up_iff in H. destruct H as (_ & _ & H). simpl in H.
    replace (-1 - 1) with (- (2)) in H by ring.
    rewrite Rabs_Ropp, Rabs_pos_eq in H by lra.
    unfold tol, default_rtol in H. lra.
Qed.

Lemma create_truncated_cone_zero_height
    (name : string) (p : vec) (base_radius apex_radius : R) :
  create_truncated_cone name p p base_radius apex_radius = None.
Proof.
  unfold create_truncated_cone. rewrite sub_self, norm_zero.
  replace (Reqb 0 0) with true; [reflexivity |].
  symmetry. now apply Reqb_true_iff.
Qed.

Lemma create_truncated_cone_positive_height
    (name : string) (base_pos apex_pos : vec) (base_radius apex_radius : R) :
  0 < distance base_pos apex_pos ->
  create_truncated_cone name base_pos apex_pos base_radius apex_radius
  = Some (mkCone name 64 base_radius apex_radius
            (distance base_pos apex_pos)
            (Vec.div (Vec.add base_pos apex_pos) 2)
            (align (Vec.div (Vec.sub apex_pos base_pos)
                            (distance base_pos apex_pos)))).
Proof.
  intros H. unfold create_truncated_cone, distance, vector_components in *.
  replace (Reqb (Vec.norm (Vec.sub apex_pos base_pos)) 0) with false;
    [reflexivity |].
  symmetry. apply Reqb_false_iff. lra.
Qed.

Lemma create_truncated_cone_None_iff
    (name : string) (base_pos apex_pos : vec) (base_radius apex_radius : R) :
  create_truncated_cone name base_pos apex_pos base_radius apex_radius = None
  <-> base_pos = apex_pos.
Proof.
  split.
  - intros H. apply distance_eq_0_iff.
    destruct (Req_dec_T (distance base_pos apex_pos) 0) as [E | N]; [exact E |].
    assert (P : 0 < distance base_pos apex_pos).
    { pose proof (norm_nonneg (vector_components base_pos apex_pos)).
      unfold distance in *. lra. }
    rewrite (create_truncated_cone_positive_height _ _ _ _ _ P) in H.
    discriminate.
  - intros ->. apply create_truncated_cone_zero_height.
Qed.

(** C2: with base equal to apex the builder returns [None] (the zero-height
    failure), and with a positive height and non-negative radii it returns
    a mesh object, whose depth is that height and whose radii are the ones
    given. *)
Theorem C2_builder_fails_iff_zero_height
    (name : string) (base_pos apex_pos : vec) (base_radius apex_radius : R) :
  (base_pos = apex_pos ->
   create_truncated_cone name base_pos apex_pos base_radius apex_radius
   = None)
  /\ (0 < distance base_pos apex_pos ->
      0 <= base_radius -> 0 <= apex_radius ->
      exists obj,
        create_truncated_cone name base_pos apex_pos base_radius apex_radius
        = Some obj
        /\ depth obj = distance base_pos apex_pos
        /\ radius1 obj = base_radius /\ radius2 obj = apex_radius).
Proof.
  split.
  - intros ->. apply create_truncated_cone_zero_height.
  - intros H _ _. eexists. split.
    + apply create_truncated_cone_positive_height. exact H.
    + simpl. auto.
Qed.

Lemma distance_along_z (bx by_ bz h : R) :
  0 <= h -> distance (Vec.mk bx by_ bz) (Vec.mk bx by_ (bz + h)) = h.
Proof.
  intros H. unfold distance, vector_components, Vec.norm.
  apply sqrt_of_square; [exact H |]. unfold Vec.dot. simpl. ring.
Qed.

Lemma C2_witness :
  create_truncated_cone "c" (Vec.mk 0 0 0) (Vec.mk 0 0 0) 2 2 = None
  /\ exists obj,
       create_truncated_cone "c" (Vec.mk 0 0 0) (Vec.mk 0 0 (0 + 10)) 2 2
       = Some obj
       /\ depth obj = distance (Vec.mk 0 0 0) (Vec.mk 0 0 (0 + 10))
       /\ radius1 obj = 2 /\ radius2 obj = 2.
Proof.
  split.
  - apply (C2_builder_fails_iff_zero_height "c" (Vec.mk 0 0 0) (Vec.mk 0 0 0)).
    reflexivity.
  - apply (C2_builder_fails_iff_zero_height "c"); try lra.
    rewrite distance_along_z; lra.
Defined.

(** C4: when the axis points exactly down the reference axis (apex directly
    below base), the builder returns a mesh object and gives it the fixed
    rotation of [pi] radians about the X axis. *)
Theorem C4_antiparallel_flips_about_x
    (name : string) (base_pos apex_pos : vec) (base_radius apex_radius h : R) :
  0 < h ->
  Vec.sub apex_pos base_pos = Vec.mk 0 0 (- h) ->
  exists obj,
    create_truncated_cone name base_pos apex_pos base_radius apex_radius
    = Some obj
    /\ obj_rotation obj = AxisAngle PI 1 0 0.
Proof.
  intros Hh Hd.
  assert (Hn : distance base_pos apex_pos = h).
  { unfold distance, vector_components, Vec.norm. rewrite Hd.
    apply sqrt_of_square; [lra |]. unfold Vec.dot. simpl. ring. }
  eexists. split.
  - apply create_truncated_cone_positive_height. lra.
  - simpl. rewrite Hd, Hn.
    replace (Vec.div (Vec.mk 0 0 (- h)) h) with down.
    + apply align_down.
    + unfold down, Vec.div. simpl. f_equal; field; lra.
Qed.

Lemma C4_witness :
  exists obj,
    create_truncated_cone "c" (Vec.mk 1 2 10) (Vec.mk 1 2 0) 2 3 = Some obj
    /\ obj_rotation obj = AxisAngle PI 1 0 0.
Proof.
  apply (C4_antiparallel_flips_about_x "c" _ _ 2 3 10).
  - lra.
  - unfold Vec.sub. simpl. f_equal; ring.
Defined.

(** *** The parallel test is made on components *)

Lemma norm_1_dot (d : vec) : Vec.norm d = 1 -> Vec.dot d d = 1.
Proof.
  intros H. pose proof (sqrt_sqrt _ (dot_self_nonneg d)) as E.
  unfold Vec.norm in H. rewrite H in E. lra.
Qed.

Lemma sqrt_le_bound (q t : R) : 0 <= q -> 0 <= t -> sqrt q <= t -> q <= t * t.
Proof.
  intros Hq Ht H. rewrite <- (sqrt_sqrt q Hq).
  pose proof (sqrt_pos q). nra.
Qed.

Lemma Rabs_le_of_square (a t : R) : 0 <= t -> a * a <= t * t -> Rabs a <= t.
Proof.
  intros Ht H. unfold Rabs. destruct (Rcase_abs a); nra.
Qed.

(** For a unit direction the last branch of the alignment step, the one
    that warns and leaves the object unrotated, cannot be taken: a cross
    product that short forces one of the two earlier tests to succeed. *)
Lemma align_unit_unrotated_iff (d : vec) :
  Vec.norm d = 1 ->
  (align d = Unrotated <-> allclose d up tol = true).
Proof.
  intros Hu. unfold align. split.
  - destruct (allclose d up tol) eqn:Eup; [reflexivity |].
    destruct (allclose d down tol) eqn:Edown; [discriminate |].
    destruct (Rgtb _ tol) eqn:Eax; [discriminate |]. intros _.
    exfalso. apply Rgtb_false_iff in Eax.
    apply norm_1_dot in Hu. destruct d as [dx dy dz].
    unfold Vec.norm, Vec.cross, Vec.dot, up in Eax, Hu. simpl in Eax, Hu.
    assert (T : 0 <= tol) by (unfold tol; lra).
    apply sqrt_le_bound in Eax; [| nra | exact T].
    assert (Hx : Rabs dx <= tol) by (apply Rabs_le_of_square; nra).
    assert (Hy : Rabs dy <= tol) by (apply Rabs_le_of_square; nra).
    destruct (Rle_dec 0 dz) as [Hz | Hz].
    + assert (A : allclose (Vec.mk dx dy dz) up tol = true).
      { apply allclose_up_iff. simpl. repeat split; try assumption.
        unfold tol, default_rtol in *. unfold Rabs.
        destruct (Rcase_abs (dz - 1)); nra. }
      congruence.
    + assert (A : allclose (Vec.mk dx dy dz) down tol = true).
      { apply allclose_down_iff. simpl. repeat split; try assumption.
        unfold tol, default_rtol in *. unfold Rabs.
        destruct (Rcase_abs (dz + 1)); nra. }
      congruence.
  - intros ->. reflexivity.
Qed.

Lemma norm_div_self (v : vec) :
  0 < Vec.norm v -> Vec.norm (Vec.div v (Vec.norm v)) = 1.
Proof.
  intros H. unfold Vec.norm at 1.
  apply sqrt_of_square; [lra |].
  pose proof (sqrt_sqrt _ (dot_self_nonneg v)) as E. fold (Vec.norm v) in E.
  unfold Vec.dot in *. simpl.
  replace (1 * 1) with ((Vec.norm v * Vec.norm v) / (Vec.norm v * Vec.norm v))
    by (field; lra).
  rewrite E at 1. field. lra.
Qed.

Lemma tilted_distance : distance tilted_base tilted_apex = 2002226.
Proof.
  unfold distance, vector_components, Vec.norm.
  apply sqrt_of_square; [lra |]. unfold Vec.dot. simpl. ring.
Qed.

Lemma tilted_direction_norm :
  Vec.div (Vec.sub tilted_apex tilted_base) (distance tilted_base tilted_apex)
  = tilted_dir.
Proof.
  rewrite tilted_distance. unfold tilted_dir, Vec.div, Vec.sub. simpl.
  f_equal; field.
Qed.

Lemma tilted_dir_unit : Vec.norm tilted_dir = 1.
Proof.
  unfold Vec.norm. apply sqrt_of_square; [lra |].
  unfold Vec.dot. simpl. field.
Qed.

Lemma tilted_dir_cosine : Rabs (Vec.dot up tilted_dir - 1) <= tol.
Proof.
  unfold Vec.dot, tol. simpl. unfold Rabs.
  destruct (Rcase_abs _); lra.
Qed.

Lemma tilted_dir_align :
  align tilted_dir = AxisAngle (acos (2002224 / 2002226)) 0 1 0.
Proof.
  assert (Hx : Rabs (Vec.x tilted_dir) > tol).
  { simpl. rewrite Rabs_pos_eq by lra. unfold tol. lra. }
  unfold align.
  replace (allclose tilted_dir up tol) with false.
  2:{ symmetry. apply not_true_is_false. intros H.
      apply allclose_up_iff in H. lra. }
  replace (allclose tilted_dir down tol) with false.
  2:{ symmetry. apply not_true_is_false. intros H.
      apply allclose_down_iff in H. lra. }
  assert (Hn : Vec.norm (Vec.cross up tilted_dir) = 2830 / 2002226).
  { unfold Vec.norm. apply sqrt_of_square; [lra |].
    unfold Vec.dot. simpl. field. }
  rewrite Hn.
  replace (Rgtb (2830 / 2002226) tol) with true.
  2:{ symmetry. apply Rgtb_true_iff. unfold tol. lra. }
  unfold Vec.div, Vec.dot. simpl. f_equal.
  - f_equal. rewrite clip_id; lra.
  - field.
  - field.
  - field.
Qed.

(** C3, the claim as written fails: [tilted_dir] is a unit direction whose
    cosine with the reference axis is within [1e-6] of 1, it is the
    direction the builder derives from [tilted_base] and [tilted_apex], and
    the builder rotates that frustum by a non-zero angle about the Y axis. *)
Lemma C3_counterexample :
  Vec.norm tilted_dir = 1
  /\ Rabs (Vec.dot up tilted_dir - 1) <= tol
  /\ Vec.div (Vec.sub tilted_apex tilted_base)
             (distance tilted_base tilted_apex) = tilted_dir
  /\ exists obj,
       create_truncated_cone "c" tilted_base tilted_apex 2 2 = Some obj
       /\ obj_rotation obj = AxisAngle (acos (2002224 / 2002226)) 0 1 0
       /\ 0 < acos (2002224 / 2002226)
       /\ obj_rotation obj <> Unrotated.
Proof.
  split; [exact tilted_dir_unit |].
  split; [exact tilted_dir_cosine |].
  split; [exact tilted_direction_norm |].
  eexists. split.
  - apply create_truncated_cone_positive_height.
    rewrite tilted_distance. lra.
  - simpl. rewrite tilted_direction_norm, tilted_dir_align.
    split; [reflexivity |]. split; [| discriminate].
    apply acos_bound_lt. lra.
Qed.

(** C3, amended: the builder leaves the frustum unrotated exactly when the
    components of the unit direction pass [np.allclose] against [(0, 0, 1)]
    with [atol = 1e-6] and the default [rtol = 1e-5]: the first two within
    [1e-6] of 0 and the third within [1e-6 + 1e-5] of 1.  The test is made on
    the components, not on the cosine. *)
Theorem C3_parallel_test_is_componentwise
    (name : string) (base_pos apex_pos : vec) (base_radius apex_radius : R) :
  0 < distance base_pos apex_pos ->
  exists obj,
    create_truncated_cone name base_pos apex_pos base_radius apex_radius
    = Some obj
    /\ (obj_rotation obj = Unrotated <->
        Rabs (Vec.x (Vec.div (Vec.sub apex_pos base_pos)
                             (distance base_pos apex_pos))) <= tol
        /\ Rabs (Vec.y (Vec.div (Vec.sub apex_pos base_pos)
                                (distance base_pos apex_pos))) <= tol
        /\ Rabs (Vec.z (Vec.div (Vec.sub apex_pos base_pos)
                                (distance base_pos apex_pos)) - 1)
           <= tol + default_rtol).
Proof.
  intros H. eexists. split.
  - apply create_truncated_cone_positive_height. exact H.
  - cbn [obj_rotation]. rewrite <- allclose_up_iff.
    apply align_unit_unrotated_iff.
    unfold distance, vector_components in *. now apply norm_div_self.
Qed.

Lemma C3_witness :
  exists obj,
    create_truncated_cone "c" (Vec.mk 0 0 0) (Vec.mk 0 0 (0 + 10)) 2 2
    = Some obj
    /\ (obj_rotation obj = Unrotated <->
        Rabs (Vec.x (Vec.div (Vec.sub (Vec.mk 0 0 (0 + 10)) (Vec.mk 0 0 0))
                (distance (Vec.mk 0 0 0) (Vec.mk 0 0 (0 + 10))))) <= tol
        /\ Rabs (Vec.y (Vec.div (Vec.sub (Vec.mk 0 0 (0 + 10)) (Vec.mk 0 0 0))
                   (distance (Vec.mk 0 0 0) (Vec.mk 0 0 (0 + 10))))) <= tol
        /\ Rabs (Vec.z (Vec.div (Vec.sub (Vec.mk 0 0 (0 + 10)) (Vec.mk 0 0 0))
                   (distance (Vec.mk 0 0 0) (Vec.mk 0 0 (0 + 10)))) - 1)
           <= tol + default_rtol).
Proof.
  apply (C3_parallel_test_is_componentwise "c").
  rewrite distance_along_z; lra.
Defined.

(** ** The analysis *)

Section AnalysisFacts.

Variable calc_volume : cone_object -> cone_object -> R.

Lemma boolean_intersection_volume_nonneg (a b : cone_object) :
  0 <= boolean_intersection_volume calc_volume a b.
Proof. apply Rabs_pos. Qed.

Lemma overlap_vol_nonneg
    (pb pa rb ra : vec) (r_ptop r_pbot r_rtop r_rbot : R) :
  0 <= overlap_vol
         (analyze_implant calc_volume pb pa rb ra
            r_ptop r_pbot r_rtop r_rbot).
Proof.
  unfold analyze_implant. cbn [overlap_vol].
  destruct (create_truncated_cone _ pb pa _ _); [| lra].
  destruct (create_truncated_cone _ rb ra _ _); [| lra].
  apply boolean_intersection_volume_nonneg.
Qed.

Lemma overlap_vol_failed_geometry
    (pb pa rb ra : vec) (r_ptop r_pbot r_rtop r_rbot : R) :
  create_truncated_cone "PlannedImplantTemp" pb pa r_pbot r_ptop = None
  \/ create_truncated_cone "RealImplantTemp" rb ra r_rbot r_rtop = None ->
  overlap_vol
    (analyze_implant calc_volume pb pa rb ra r_ptop r_pbot r_rtop r_rbot)
  = 0.
Proof.
  intros H. unfold analyze_implant. cbn [overlap_vol].
  destruct H as [-> | ->]; [reflexivity |].
  now destruct (create_truncated_cone _ pb pa _ _).
Qed.

Lemma overlap_pct_unfold
    (pb pa rb ra : vec) (r_ptop r_pbot r_rtop r_rbot : R) :
  overlap_pct
    (analyze_implant calc_volume pb pa rb ra r_ptop r_pbot r_rtop r_rbot)
  = if Rgtb (cylinder_volume r_ptop r_pbot (distance pb pa)) 0
    then 100
         * overlap_vol
             (analyze_implant calc_volume pb pa rb ra
                r_ptop r_pbot r_rtop r_rbot)
         / cylinder_volume r_ptop r_pbot (distance pb pa)
    else 0.
Proof. reflexivity. Qed.

End AnalysisFacts.

(** C5: the overlap percentage of the report is
    [100 * overlap volume / planned volume] when the planned volume is
    positive and 0 otherwise, the planned volume being the analytic volume
    for the planned radii and the distance from planned base to planned
    apex. *)
Theorem C5_overlap_percentage
    (calc_volume : cone_object -> cone_object -> R)
    (pb pa rb ra : vec) (r_ptop r_pbot r_rtop r_rbot : R) :
  (cylinder_volume r_ptop r_pbot (distance pb pa) > 0 ->
   overlap_pct
     (analyze_implant calc_volume pb pa rb ra r_ptop r_pbot r_rtop r_rbot)
   = 100
     * overlap_vol
         (analyze_implant calc_volume pb pa rb ra r_ptop r_pbot r_rtop r_rbot)
     / cylinder_volume r_ptop r_pbot (distance pb pa))
  /\ (~ cylinder_volume r_ptop r_pbot (distance pb pa) > 0 ->
      overlap_pct
        (analyze_implant calc_volume pb pa rb ra r_ptop r_pbot r_rtop r_rbot)
      = 0).
Proof.
  rewrite overlap_pct_unfold.
  destruct (Rgtb _ 0) eqn:E.
  - apply Rgtb_true_iff in E. split; [reflexivity | intros N; lra].
  - apply Rgtb_false_iff in E. split; [intros P; lra | reflexivity].
Qed.

Lemma planned_volume_positive_sample :
  cylinder_volume 2 2 (distance (Vec.mk 0 0 0) (Vec.mk 0 0 (0 + 10))) > 0.
Proof.
  rewrite distance_along_z by lra. unfold cylinder_volume.
  pose proof PI_RGT_0. nra.
Qed.

Lemma C5_witness :
  overlap_pct
    (analyze_implant empty_intersection (Vec.mk 0 0 0) (Vec.mk 0 0 (0 + 10))
       (Vec.mk 1 0 0) (Vec.mk 1 0 10) 2 2 2 2)
  = 100
    * overlap_vol
        (analyze_implant empty_intersection (Vec.mk 0 0 0)
           (Vec.mk 0 0 (0 + 10)) (Vec.mk 1 0 0) (Vec.mk 1 0 10) 2 2 2 2)
    / cylinder_volume 2 2 (distance (Vec.mk 0 0 0) (Vec.mk 0 0 (0 + 10))).
Proof.
  apply (proj1 (C5_overlap_percentage empty_intersection
                  (Vec.mk 0 0 0) (Vec.mk 0 0 (0 + 10))
                  (Vec.mk 1 0 0) (Vec.mk 1 0 10) 2 2 2 2)).
  exact planned_volume_positive_sample.
Defined.

(** C1, amended: when either frustum cannot be built, [analyze_implant]
    still returns a report; its overlap volume is 0 and its overlap
    percentage is 0. *)
Theorem C1_failed_geometry_reports_zero_overlap
    (calc_volume : cone_object -> cone_object -> R)
    (pb pa rb ra : vec) (r_ptop r_pbot r_rtop r_rbot : R) :
  create_truncated_cone "PlannedImplantTemp" pb pa r_pbot r_ptop = None
  \/ create_truncated_cone "RealImplantTemp" rb ra r_rbot r_rtop = None ->
  overlap_vol
    (analyze_implant calc_volume pb pa rb ra r_ptop r_pbot r_rtop r_rbot) = 0
  /\ overlap_pct
       (analyze_implant calc_volume pb pa rb ra r_ptop r_pbot r_rtop r_rbot)
     = 0.
Proof.
  intros H. pose proof (overlap_vol_failed_geometry calc_volume _ _ _ _ _ _ _ _ H)
    as Hv.
  split; [exact Hv |].
  rewrite overlap_pct_unfold, Hv.
  destruct (Rgtb _ 0); [| reflexivity].
  unfold Rdiv. ring.
Qed.

Lemma C1_witness :
  overlap_vol
    (analyze_implant empty_intersection origin origin real_base real_apex_1
       2 2 2 2) = 0
  /\ overlap_pct
       (analyze_implant empty_intersection origin origin real_base real_apex_1
          2 2 2 2) = 0.
Proof.
  apply C1_failed_geometry_reports_zero_overlap.
  left. apply create_truncated_cone_zero_height.
Defined.

Lemma norm_along_z (h : R) : 0 <= h -> Vec.norm (Vec.mk 0 0 h) = h.
Proof.
  intros H. unfold Vec.norm. apply sqrt_of_square; [exact H |].
  unfold Vec.dot. simpl. ring.
Qed.

Lemma angle_between_vectors_along_z (h1 h2 : R) :
  0 < h1 -> 0 < h2 ->
  angle_between_vectors (Vec.mk 0 0 h1) (Vec.mk 0 0 h2) = 0.
Proof.
  intros H1 H2. unfold angle_between_vectors.
  rewrite !norm_along_z by lra.
  replace (Reqb h1 0) with false by (symmetry; apply Reqb_false_iff; lra).
  replace (Reqb h2 0) with false by (symmetry; apply Reqb_false_iff; lra).
  simpl orb. cbv iota.
  replace (Vec.dot (Vec.mk 0 0 h1) (Vec.mk 0 0 h2) / (h1 * h2)) with 1
    by (unfold Vec.dot; simpl; field; lra).
  rewrite clip_id by lra. rewrite acos_1. unfold degrees. ring.
Qed.

Lemma failed_geometry_report :
  analyze_implant empty_intersection origin origin real_base real_apex_1
    2 2 2 2
  = side_by_side_report.
Proof.
  assert (Eb : vector_components origin real_base = Vec.mk 5 0 0).
  { unfold vector_components, Vec.sub. simpl. f_equal; ring. }
  assert (Ea : vector_components origin real_apex_1 = Vec.mk 5 0 1).
  { unfold vector_components, Vec.sub. simpl. f_equal; ring. }
  unfold analyze_implant, side_by_side_report.
  rewrite create_truncated_cone_zero_height, Eb, Ea.
  f_equal.
  - unfold Vec.norm. apply sqrt_of_square; [lra |].
    unfold Vec.dot. simpl. ring.
  - unfold Vec.norm. f_equal. unfold Vec.dot. simpl. ring.
  - apply angle_between_vectors_zero_length. left.
    unfold vector_components. rewrite sub_self. apply norm_zero.
  - destruct (Rgtb _ 0); [unfold Rdiv; ring | reflexivity].
Qed.

Lemma genuine_zero_overlap_report :
  analyze_implant empty_intersection origin planned_apex_ok
    real_base real_apex_2 2 2 2 2
  = side_by_side_report.
Proof.
  assert (Eb : vector_components origin real_base = Vec.mk 5 0 0).
  { unfold vector_components, Vec.sub. simpl. f_equal; ring. }
  assert (Ea : vector_components planned_apex_ok real_apex_2 = Vec.mk 5 0 1).
  { unfold vector_components, Vec.sub. simpl. f_equal; ring. }
  assert (Ep : vector_components origin planned_apex_ok = Vec.mk 0 0 1).
  { unfold vector_components, Vec.sub. simpl. f_equal; ring. }
  assert (Er : vector_components real_base real_apex_2 = Vec.mk 0 0 2).
  { unfold vector_components, Vec.sub. simpl. f_equal; ring. }
  unfold analyze_implant, side_by_side_report.
  rewrite Eb, Ea, Ep, Er.
  rewrite !create_truncated_cone_positive_height
    by (unfold distance; rewrite ?Ep, ?Er, norm_along_z; lra).
  unfold boolean_intersection_volume, empty_intersection. rewrite Rabs_R0.
  f_equal.
  - unfold Vec.norm. apply sqrt_of_square; [lra |].
    unfold Vec.dot. simpl. ring.
  - unfold Vec.norm. f_equal. unfold Vec.dot. simpl. ring.
  - apply angle_between_vectors_along_z; lra.
  - destruct (Rgtb _ 0); [unfold Rdiv; ring | reflexivity].
Qed.

(** C1, the claim as written fails: with planned base equal to planned
    apex the planned frustum is not built, yet [analyze_implant] returns a
    report, and that report is the very one returned for two frustums that
    are both built and do not intersect. *)
Lemma C1_counterexample :
  create_truncated_cone "PlannedImplantTemp" origin origin 2 2 = None
  /\ analyze_implant empty_intersection origin origin real_base real_apex_1
       2 2 2 2
     = side_by_side_report
  /\ (exists p r,
        create_truncated_cone "PlannedImplantTemp" origin planned_apex_ok 2 2
        = Some p
        /\ create_truncated_cone "RealImplantTemp" real_base real_apex_2 2 2
           = Some r
        /\ boolean_intersection_volume empty_intersection p r = 0)
  /\ analyze_implant empty_intersection origin planned_apex_ok
       real_base real_apex_2 2 2 2 2
     = side_by_side_report.
Proof.
  split; [apply create_truncated_cone_zero_height |].
  split; [exact failed_geometry_report |].
  split; [| exact genuine_zero_overlap_report].
  assert (Dp : 0 < distance origin planned_apex_ok).
  { unfold distance, vector_components, Vec.norm.
    erewrite sqrt_of_square with (a := 1);
      [lra | lra | unfold Vec.dot; simpl; ring]. }
  assert (Dr : 0 < distance real_base real_apex_2).
  { unfold distance, vector_components, Vec.norm.
    erewrite sqrt_of_square with (a := 2);
      [lra | lra | unfold Vec.dot; simpl; ring]. }
  do 2 eexists.
  split; [apply create_truncated_cone_positive_height; exact Dp |].
  split; [apply create_truncated_cone_positive_height; exact Dr |].
  unfold boolean_intersection_volume, empty_intersection. apply Rabs_R0.
Qed.


(** * Further properties of the code *)

(** ** Angles *)

Lemma norm_sqr (v : vec) : Vec.norm v * Vec.norm v = Vec.dot v v.
Proof. apply sqrt_sqrt, dot_self_nonneg. Qed.

Lemma norm_pos (v : vec) : v <> Vec.zero -> 0 < Vec.norm v.
Proof.
  intros H. pose proof (norm_nonneg v) as P.
  destruct (Req_dec_T (Vec.norm v) 0) as [E | N]; [| lra].
  apply norm_eq_0_iff in E. contradiction.
Qed.

Lemma angle_between_vectors_nonzero (v1 v2 : vec) :
  0 < Vec.norm v1 -> 0 < Vec.norm v2 ->
  angle_between_vectors v1 v2
  = degrees (acos (clip (Vec.dot v1 v2 / (Vec.norm v1 * Vec.norm v2))
                        (-1) 1)).
Proof.
  intros H1 H2. unfold angle_between_vectors.
  replace (Reqb (Vec.norm v1) 0) with false
    by (symmetry; apply Reqb_false_iff; lra).
  replace (Reqb (Vec.norm v2) 0) with false
    by (symmetry; apply Reqb_false_iff; lra).
  reflexivity.
Qed.










(** X3: two non-zero perpendicular vectors make the angle 90. *)
Theorem angle_of_perpendicular (v1 v2 : vec) :
  v1 <> Vec.zero -> v2 <> Vec.zero -> Vec.dot v1 v2 = 0 ->
  angle_between_vectors v1 v2 = 90.
Proof.
  intros H1 H2 Hd. apply norm_pos in H1. apply norm_pos in H2.
  rewrite angle_between_vectors_nonzero by assumption.
  rewrite Hd. unfold Rdiv. rewrite Rmult_0_l.
  rewrite clip_id by lra. rewrite acos_0. unfold degrees.
  pose proof PI_RGT_0. field. lra.
Qed.

Lemma angle_of_perpendicular_witness :
  angle_between_vectors (Vec.mk 1 0 0) (Vec.mk 0 1 0) = 90.
Proof.
  apply angle_of_perpendicular.
  - apply vec_neq_by_x. simpl. lra.
  - apply vec_neq_by_y. simpl. lra.
  - unfold Vec.dot. simpl. ring.
Defined.






(** ** Distances and volumes *)

(** X6: the distance of two points is 0 exactly when they are the same
    point, and is never negative. *)
Theorem distance_zero_iff_same_point (p1 p2 : vec) :
  0 <= distance p1 p2 /\ (distance p1 p2 = 0 <-> p1 = p2).
Proof.
  split; [apply norm_nonneg | apply distance_eq_0_iff].
Qed.



Lemma radii_form_nonneg (a b : R) : 0 <= a ^ 2 + a * b + b ^ 2.
Proof. nra. Qed.

Lemma radii_form_zero (a b : R) : a ^ 2 + a * b + b ^ 2 = 0 -> a = 0 /\ b = 0.
Proof.
  intros H.
  pose proof (Rle_0_sqr (a + b / 2)) as H1. pose proof (Rle_0_sqr b) as H2.
  pose proof (Rle_0_sqr (b + a / 2)) as H3. pose proof (Rle_0_sqr a) as H4.
  unfold Rsqr in *.
  assert (Hb : b * b = 0) by nra. assert (Ha : a * a = 0) by nra.
  apply Rmult_integral in Hb. apply Rmult_integral in Ha. tauto.
Qed.

(** X8: for a non-negative height the analytic volume is never negative,
    whatever the signs of the radii, and it is positive exactly when the
    height is positive and the radii are not both 0. *)
Theorem cylinder_volume_sign (r_top r_bottom h : R) :
  0 <= h ->
  0 <= cylinder_volume r_top r_bottom h
  /\ (0 < cylinder_volume r_top r_bottom h
      <-> 0 < h /\ ~ (r_top = 0 /\ r_bottom = 0)).
Proof.
  intros Hh. unfold cylinder_volume. pose proof PI_RGT_0 as Hpi.
  pose proof (radii_form_nonneg r_top r_bottom) as Hq.
  assert (Hk : 0 <= 1 / 3 * PI * h) by nra.
  split; [apply Rmult_le_pos; assumption |].
  split.
  - intros Hv. split.
    + destruct (Req_dec_T h 0) as [-> | N]; [| lra].
      rewrite Rmult_0_r, Rmult_0_l in Hv. lra.
    + intros [-> ->]. ring_simplify in Hv. lra.
  - intros [Hp Hr].
    assert (Hq' : 0 < r_top ^ 2 + r_top * r_bottom + r_bottom ^ 2).
    { destruct (Req_dec_T (r_top ^ 2 + r_top * r_bottom + r_bottom ^ 2) 0)
        as [E | N]; [| lra].
      apply radii_form_zero in E. contradiction. }
    apply Rmult_lt_0_compat; [nra | exact Hq'].
Qed.

Lemma cylinder_volume_sign_witness :
  0 <= cylinder_volume 2 (-1) 10
  /\ (0 < cylinder_volume 2 (-1) 10 <-> 0 < 10 /\ ~ (2 = 0 /\ -1 = 0)).
Proof. apply cylinder_volume_sign. lra. Defined.

(** ** The frustum builder, continued *)

(** X9: exchanging base and apex, with their radii, gives a frustum of the
    same depth at the same location, with the two radii exchanged; one is
    built exactly when the other is. *)
Theorem builder_swap_endpoints
    (name : string) (base_pos apex_pos : vec) (base_radius apex_radius : R) :
  match create_truncated_cone name base_pos apex_pos base_radius apex_radius,
        create_truncated_cone name apex_pos base_pos apex_radius base_radius
  with
  | Some obj, Some swapped =>
      depth swapped = depth obj /\ location swapped = location obj
      /\ radius1 swapped = radius2 obj /\ radius2 swapped = radius1 obj
  | None, None => True
  | _, _ => False
  end.
Proof.
  assert (Ed : distance apex_pos base_pos = distance base_pos apex_pos).
  { unfold distance, vector_components.
    replace (Vec.sub base_pos apex_pos)
      with (Vec.neg (Vec.sub apex_pos base_pos))
      by (unfold Vec.neg, Vec.sub; simpl; f_equal; ring).
    apply norm_neg. }
  destruct (Req_dec_T (distance base_pos apex_pos) 0) as [E | N].
  - apply distance_eq_0_iff in E. subst apex_pos.
    now rewrite !create_truncated_cone_zero_height.
  - assert (P : 0 < distance base_pos apex_pos).
    { pose proof (norm_nonneg (vector_components base_pos apex_pos)).
      unfold distance in *. lra. }
    rewrite (create_truncated_cone_positive_height name base_pos apex_pos)
      by exact P.
    rewrite (create_truncated_cone_positive_height name apex_pos base_pos)
      by (rewrite Ed; exact P).
    simpl. split; [exact Ed |]. split; [| split; reflexivity].
    unfold Vec.div, Vec.add. simpl. f_equal; field.
Qed.



Lemma unit_z_in_range (d : vec) : Vec.norm d = 1 -> -1 <= Vec.z d <= 1.
Proof.
  intros H. apply norm_1_dot in H. destruct d as [dx dy dz].
  unfold Vec.dot in H. simpl in *. split; nra.
Qed.

Lemma short_axis_is_vertical (d : vec) :
  Vec.norm d = 1 -> Vec.norm (Vec.cross up d) <= tol ->
  allclose d up tol = true \/ allclose d down tol = true.
Proof.
  intros Hu Hax. apply norm_1_dot in Hu. destruct d as [dx dy dz].
  unfold Vec.norm, Vec.cross, Vec.dot, up in Hax, Hu. simpl in Hax, Hu.
  assert (T : 0 <= tol) by (unfold tol; lra).
  apply sqrt_le_bound in Hax; [| nra | exact T].
  assert (Hx : Rabs dx <= tol) by (apply Rabs_le_of_square; nra).
  assert (Hy : Rabs dy <= tol) by (apply Rabs_le_of_square; nra).
  destruct (Rle_dec 0 dz) as [Hz | Hz]; [left | right].
  - apply allclose_up_iff. simpl. repeat split; try assumption.
    unfold tol, default_rtol in *. unfold Rabs.
    destruct (Rcase_abs (dz - 1)); nra.
  - apply allclose_down_iff. simpl. repeat split; try assumption.
    unfold tol, default_rtol in *. unfold Rabs.
    destruct (Rcase_abs (dz + 1)); nra.
Qed.

Lemma align_cases (d : vec) :
  Vec.norm d = 1 ->
  (align d = Unrotated /\ allclose d up tol = true)
  \/ (align d = AxisAngle PI 1 0 0 /\ allclose d down tol = true)
  \/ (exists angle ax ay,
        align d = AxisAngle angle ax ay 0
        /\ ax * ax + ay * ay = 1
        /\ ax * Vec.x d + ay * Vec.y d = 0
        /\ cos angle = Vec.z d
        /\ 0 <= angle <= PI).
Proof.
  intros Hu. unfold align.
  destruct (allclose d up tol) eqn:Eup; [left; auto |].
  destruct (allclose d down tol) eqn:Edown; [right; left; auto |].
  right. right.
  destruct (Rgtb (Vec.norm (Vec.cross up d)) tol) eqn:Eax.
  2:{ apply Rgtb_false_iff in Eax.
      destruct (short_axis_is_vertical d Hu Eax); congruence. }
  apply Rgtb_true_iff in Eax.
  set (L := Vec.norm (Vec.cross up d)) in *.
  assert (HL : 0 < L) by (unfold tol in Eax; lra).
  assert (HLL : L * L = Vec.y d * Vec.y d + Vec.x d * Vec.x d).
  { unfold L. rewrite norm_sqr. unfold Vec.dot, Vec.cross, up. simpl. ring. }
  pose proof (unit_z_in_range d Hu) as Hz.
  exists (acos (clip (Vec.dot up d) (-1) 1)),
         (Vec.x (Vec.div (Vec.cross up d) L)),
         (Vec.y (Vec.div (Vec.cross up d) L)).
  split; [| split; [| split; [| split]]].
  - f_equal. unfold Vec.div, Vec.cross, up. simpl. field. lra.
  - unfold Vec.div, Vec.cross, up. simpl.
    replace ((0 * Vec.z d - 1 * Vec.y d) / L * ((0 * Vec.z d - 1 * Vec.y d) / L)
             + (1 * Vec.x d - 0 * Vec.z d) / L
               * ((1 * Vec.x d - 0 * Vec.z d) / L))
      with ((Vec.y d * Vec.y d + Vec.x d * Vec.x d) / (L * L))
      by (field; lra).
    rewrite <- HLL. field. lra.
  - unfold Vec.div, Vec.cross, up. simpl. field. lra.
  - replace (Vec.dot up d) with (Vec.z d)
      by (unfold Vec.dot, up; simpl; ring).
    rewrite clip_id by exact Hz. apply cos_acos. exact Hz.
  - apply acos_bound.
Qed.

(** X11: whatever frustum is built, the rotation given to it is one of
    three: none, when the unit direction passes the test against
    [(0, 0, 1)]; the half turn about X, when it passes the test against
    [(0, 0, -1)]; otherwise a rotation by an angle between 0 and [pi]
    whose cosine is the third component of the direction, about a unit
    axis that lies in the XY plane and is perpendicular to the direction.
    The branch that warns is never taken. *)
Theorem builder_rotation_cases
    (name : string) (base_pos apex_pos : vec) (base_radius apex_radius : R)
    (obj : cone_object) :
  create_truncated_cone name base_pos apex_pos base_radius apex_radius
  = Some obj ->
  (obj_rotation obj = Unrotated
   /\ allclose (Vec.div (Vec.sub apex_pos base_pos)
                        (distance base_pos apex_pos)) up tol = true)
  \/ (obj_rotation obj = AxisAngle PI 1 0 0
      /\ allclose (Vec.div (Vec.sub apex_pos base_pos)
                           (distance base_pos apex_pos)) down tol = true)
  \/ (exists angle ax ay,
        obj_rotation obj = AxisAngle angle ax ay 0
        /\ ax * ax + ay * ay = 1
        /\ ax * Vec.x (Vec.div (Vec.sub apex_pos base_pos)
                               (distance base_pos apex_pos))
           + ay * Vec.y (Vec.div (Vec.sub apex_pos base_pos)
                                 (distance base_pos apex_pos)) = 0
        /\ cos angle = Vec.z (Vec.div (Vec.sub apex_pos base_pos)
                                      (distance base_pos apex_pos))
        /\ 0 <= angle <= PI).
Proof.
  intros H.
  assert (P : 0 < distance base_pos apex_pos).
  { pose proof (norm_nonneg (vector_components base_pos apex_pos)).
    destruct (Req_dec_T (distance base_pos apex_pos) 0) as [E | N].
    - apply distance_eq_0_iff in E. subst apex_pos.
      rewrite create_truncated_cone_zero_height in H. discriminate.
    - unfold distance in *. lra. }
  rewrite (create_truncated_cone_positive_height _ _ _ _ _ P) in H.
  injection H as <-. cbn [obj_rotation].
  apply align_cases. unfold distance, vector_components in *.
  now apply norm_div_self.
Qed.

Lemma builder_rotation_cases_witness :
  (obj_rotation
     (mkCone "c" 64 2 3 (distance (Vec.mk 0 0 0) (Vec.mk 0 0 (0 + 10)))
        (Vec.div (Vec.add (Vec.mk 0 0 0) (Vec.mk 0 0 (0 + 10))) 2)
        (align (Vec.div (Vec.sub (Vec.mk 0 0 (0 + 10)) (Vec.mk 0 0 0))
                  (distance (Vec.mk 0 0 0) (Vec.mk 0 0 (0 + 10))))))
   = Unrotated
   /\ allclose (Vec.div (Vec.sub (Vec.mk 0 0 (0 + 10)) (Vec.mk 0 0 0))
                  (distance (Vec.mk 0 0 0) (Vec.mk 0 0 (0 + 10)))) up tol
      = true)
  \/ (obj_rotation
        (mkCone "c" 64 2 3 (distance (Vec.mk 0 0 0) (Vec.mk 0 0 (0 + 10)))
           (Vec.div (Vec.add (Vec.mk 0 0 0) (Vec.mk 0 0 (0 + 10))) 2)
           (align (Vec.div (Vec.sub (Vec.mk 0 0 (0 + 10)) (Vec.mk 0 0 0))
                     (distance (Vec.mk 0 0 0) (Vec.mk 0 0 (0 + 10))))))
      = AxisAngle PI 1 0 0
      /\ allclose (Vec.div (Vec.sub (Vec.mk 0 0 (0 + 10)) (Vec.mk 0 0 0))
                     (distance (Vec.mk 0 0 0) (Vec.mk 0 0 (0 + 10)))) down tol
         = true)
  \/ (exists angle ax ay,
        obj_rotation
          (mkCone "c" 64 2 3 (distance (Vec.mk 0 0 0) (Vec.mk 0 0 (0 + 10)))
             (Vec.div (Vec.add (Vec.mk 0 0 0) (Vec.mk 0 0 (0 + 10))) 2)
             (align (Vec.div (Vec.sub (Vec.mk 0 0 (0 + 10)) (Vec.mk 0 0 0))
                       (distance (Vec.mk 0 0 0) (Vec.mk 0 0 (0 + 10))))))
        = AxisAngle angle ax ay 0
        /\ ax * ax + ay * ay = 1
        /\ ax * Vec.x (Vec.div (Vec.sub (Vec.mk 0 0 (0 + 10)) (Vec.mk 0 0 0))
                         (distance (Vec.mk 0 0 0) (Vec.mk 0 0 (0 + 10))))
           + ay * Vec.y (Vec.div (Vec.sub (Vec.mk 0 0 (0 + 10)) (Vec.mk 0 0 0))
                           (distance (Vec.mk 0 0 0) (Vec.mk 0 0 (0 + 10))))
           = 0
        /\ cos angle
           = Vec.z (Vec.div (Vec.sub (Vec.mk 0 0 (0 + 10)) (Vec.mk 0 0 0))
                      (distance (Vec.mk 0 0 0) (Vec.mk 0 0 (0 + 10))))
        /\ 0 <= angle <= PI).
Proof.
  apply (builder_rotation_cases "c" (Vec.mk 0 0 0) (Vec.mk 0 0 (0 + 10)) 2 3).
  apply create_truncated_cone_positive_height.
  rewrite distance_along_z; lra.
Defined.

(** ** The analysis, continued *)




(** X14: in every report the overlap volume and the overlap percentage
    are non-negative, whatever the points, the radii and the volume that
    the mesh computation gives. *)
Theorem report_overlap_nonneg
    (calc_volume : cone_object -> cone_object -> R)
    (pb pa rb ra : vec) (r_ptop r_pbot r_rtop r_rbot : R) :
  0 <= overlap_vol (analyze_implant calc_volume pb pa rb ra
                      r_ptop r_pbot r_rtop r_rbot)
  /\ 0 <= overlap_pct (analyze_implant calc_volume pb pa rb ra
                         r_ptop r_pbot r_rtop r_rbot).
Proof.
  pose proof (overlap_vol_nonneg calc_volume pb pa rb ra
                r_ptop r_pbot r_rtop r_rbot) as Hv.
  split; [exact Hv |].
  rewrite overlap_pct_unfold.
  destruct (Rgtb _ 0) eqn:E; [| lra].
  apply Rgtb_true_iff in E.
  apply Rmult_le_pos; [lra |]. apply Rlt_le, Rinv_0_lt_compat, E.
Qed.

(** X15: when both pairs of endpoints are distinct, both frustums are
    built and the overlap volume of the report is the absolute value of
    the volume of their intersection mesh; the planned frustum has the
    planned bottom radius at its base and the planned top radius at its
    apex, and the real one likewise. *)
Theorem report_overlap_of_built_frustums
    (calc_volume : cone_object -> cone_object -> R)
    (pb pa rb ra : vec) (r_ptop r_pbot r_rtop r_rbot : R) :
  pb <> pa -> rb <> ra ->
  exists planned_obj real_obj,
    create_truncated_cone "PlannedImplantTemp" pb pa r_pbot r_ptop
    = Some planned_obj
    /\ create_truncated_cone "RealImplantTemp" rb ra r_rbot r_rtop
       = Some real_obj
    /\ radius1 planned_obj = r_pbot /\ radius2 planned_obj = r_ptop
    /\ radius1 real_obj = r_rbot /\ radius2 real_obj = r_rtop
    /\ overlap_vol (analyze_implant calc_volume pb pa rb ra
                      r_ptop r_pbot r_rtop r_rbot)
       = Rabs (calc_volume planned_obj real_obj).
Proof.
  intros Hp Hr.
  assert (Dp : 0 < distance pb pa).
  { pose proof (norm_nonneg (vector_components pb pa)).
    destruct (Req_dec_T (distance pb pa) 0) as [E | N];
      [apply distance_eq_0_iff in E; contradiction | unfold distance in *; lra]. }
  assert (Dr : 0 < distance rb ra).
  { pose proof (norm_nonneg (vector_components rb ra)).
    destruct (Req_dec_T (distance rb ra) 0) as [E | N];
      [apply distance_eq_0_iff in E; contradiction | unfold distance in *; lra]. }
  do 2 eexists.
  split; [apply create_truncated_cone_positive_height; exact Dp |].
  split; [apply create_truncated_cone_positive_height; exact Dr |].
  cbn [radius1 radius2]. repeat split.
  unfold analyze_implant. cbn [overlap_vol].
  rewrite !create_truncated_cone_positive_height by assumption.
  reflexivity.
Qed.

Lemma report_overlap_of_built_frustums_witness :
  exists planned_obj real_obj,
    create_truncated_cone "PlannedImplantTemp" origin planned_apex_ok 2 2
    = Some planned_obj
    /\ create_truncated_cone "RealImplantTemp" real_base real_apex_2 2 2
       = Some real_obj
    /\ radius1 planned_obj = 2 /\ radius2 planned_obj = 2
    /\ radius1 real_obj = 2 /\ radius2 real_obj = 2
    /\ overlap_vol (analyze_implant empty_intersection origin planned_apex_ok
                      real_base real_apex_2 2 2 2 2)
       = Rabs (empty_intersection planned_obj real_obj).
Proof.
  apply report_overlap_of_built_frustums.
  - apply vec_neq_by_z. simpl. lra.
  - apply vec_neq_by_z. simpl. lra.
Defined.

(** ** Marker centres *)

(** X16: the centre taken for a marker is the image under its world
    matrix of the mean of the eight corners of its local bounding box. *)
Theorem mesh_center_is_transformed_local_center (obj : marker_object) :
  get_mesh_center obj
  = matmul_vec (matrix_world obj)
      (Vec.div (vector_sum (corners (bound_box obj))) 8).
Proof.
  unfold get_mesh_center, vector_sum, corners. simpl.
  unfold matmul_vec, row_apply, Vec.div, Vec.add, Vec.zero. simpl.
  f_equal; field.
Qed.

(** ** Operators *)

Section OperatorFacts.

Variable calc_volume : cone_object -> cone_object -> R.

Lemma run_multiple_implants_slot_inputs (i : nat) (slot : ImplantSlotProperties) :
  Props.set_result (run_multiple_implants_slot calc_volume i slot)
    (Props.result slot)
  = slot.
Proof.
  unfold run_multiple_implants_slot.
  destruct slot as [[m1 |] [m2 |] [m3 |] [m4 |] r1 r2 r3 r4 res];
    cbn [Props.planned_base Props.planned_apex Props.real_base
         Props.real_apex]; try reflexivity.
  destruct (_ || _); reflexivity.
Qed.

Lemma run_multiple_implants_slot_result (i : nat) (slot : ImplantSlotProperties) :
  Props.result (run_multiple_implants_slot calc_volume i slot) <> EmptyText.
Proof.
  unfold run_multiple_implants_slot.
  destruct (Props.planned_base slot), (Props.planned_apex slot),
    (Props.real_base slot), (Props.real_apex slot);
    try (cbn; discriminate).
  destruct (_ || _); cbn; discriminate.
Qed.


Lemma run_multiple_implants_from_length (i : nat)
    (slots : list ImplantSlotProperties) :
  List.length (run_multiple_implants_from calc_volume i slots)
  = List.length slots.
Proof.
  revert i. induction slots as [| slot rest IH]; intros i; simpl;
    [reflexivity | now rewrite IH].
Qed.

Lemma run_multiple_implants_from_nth (k i : nat)
    (slots : list ImplantSlotProperties) :
  nth_error (run_multiple_implants_from calc_volume k slots) i
  = option_map (run_multiple_implants_slot calc_volume (k + i))
      (nth_error slots i).
Proof.
  revert k i. induction slots as [| slot rest IH]; intros k i.
  - destruct i; reflexivity.
  - destruct i as [| i]; simpl.
    + now rewrite Nat.add_0_r.
    + rewrite IH. now rewrite Nat.add_succ_r.
Qed.


End OperatorFacts.

(** X17: when one of the four markers is not selected, the single-implant
    operator reports one error, is cancelled and leaves the properties,
    the earlier result included, as they are. *)
Theorem run_single_missing_marker
    (calc_volume : cone_object -> cone_object -> R)
    (props : SingleImplantProperties) :
  Props.planned_base props = None \/ Props.planned_apex props = None
  \/ Props.real_base props = None \/ Props.real_apex props = None ->
  run_single_implant_execute calc_volume props
  = (props, [(ERROR, SelectAll4Spheres)], CANCELLED).
Proof.
  unfold run_single_implant_execute.
  intros [H | [H | [H | H]]]; rewrite H;
    destruct (Props.planned_base props), (Props.planned_apex props),
      (Props.real_base props); reflexivity.
Qed.

Lemma run_single_missing_marker_witness :
  run_single_implant_execute empty_intersection Props.default
  = (Props.default, [(ERROR, SelectAll4Spheres)], CANCELLED).
Proof. apply run_single_missing_marker. left. reflexivity. Defined.

(** X18: with the four markers selected the single-implant operator always
    finishes and stores the analysis of the four marker centres with the
    four radii of the properties; closeness of the markers only adds
    warnings, at most three, and never an error. *)
Theorem run_single_always_analyses
    (calc_volume : cone_object -> cone_object -> R)
    (props : SingleImplantProperties) (m1 m2 m3 m4 : marker_object) :
  Props.planned_base props = Some m1 -> Props.planned_apex props = Some m2 ->
  Props.real_base props = Some m3 -> Props.real_apex props = Some m4 ->
  exists reports,
    run_single_implant_execute calc_volume props
    = (Props.set_result props
         (AnalysisText
            (analyze_implant calc_volume
               (get_mesh_center m1) (get_mesh_center m2)
               (get_mesh_center m3) (get_mesh_center m4)
               (Props.r_planned_top props) (Props.r_planned_bottom props)
               (Props.r_real_top props) (Props.r_real_bottom props))),
       reports, FINISHED)
    /\ Forall (fun r => fst r = WARNING) reports
    /\ (List.length reports <= 3)%nat.
Proof.
  intros H1 H2 H3 H4. unfold run_single_implant_execute.
  rewrite H1, H2, H3, H4. eexists. split; [reflexivity |].
  destruct (Rltb _ min_distance), (Rltb _ min_distance), (_ && _); cbn;
    split; repeat constructor.
Qed.

Lemma cube_marker_center (c : vec) : get_mesh_center (cube_marker c) = c.
Proof.
  destruct c as [cx cy cz].
  unfold get_mesh_center, vector_sum, cube_marker, corners. simpl.
  unfold matmul_vec, row_apply, Vec.div, Vec.add, Vec.zero. simpl.
  f_equal; field.
Qed.

Lemma run_single_always_analyses_witness :
  exists reports,
    run_single_implant_execute empty_intersection
      (props_with_markers origin origin real_base real_apex_1)
    = (Props.set_result
         (props_with_markers origin origin real_base real_apex_1)
         (AnalysisText
            (analyze_implant empty_intersection
               (get_mesh_center (cube_marker origin))
               (get_mesh_center (cube_marker origin))
               (get_mesh_center (cube_marker real_base))
               (get_mesh_center (cube_marker real_apex_1))
               2 2 2 2)),
       reports, FINISHED)
    /\ Forall (fun r => fst r = WARNING) reports
    /\ (List.length reports <= 3)%nat.
Proof.
  apply (run_single_always_analyses empty_intersection
           (props_with_markers origin origin real_base real_apex_1));
    reflexivity.
Defined.

Lemma Rltb_true_iff (x y : R) : Rltb x y = true <-> x < y.
Proof.
  unfold Rltb. destruct (Rlt_dec x y); split; intros; try congruence; lra.
Qed.

Lemma Rltb_false_iff (x y : R) : Rltb x y = false <-> y <= x.
Proof.
  unfold Rltb. destruct (Rlt_dec x y); split; intros; try congruence; lra.
Qed.

(** X19: the two run operators treat close markers differently.  For the
    same properties with four markers, of which the planned pair or the
    real pair is less than 0.1 apart, the single-implant operator stores
    an analysis, while the batch operator stores the warning text for that
    slot and no analysis. *)
Theorem close_markers_single_versus_batch
    (calc_volume : cone_object -> cone_object -> R)
    (props : Props.t) (m1 m2 m3 m4 : marker_object) (i : nat) :
  Props.planned_base props = Some m1 -> Props.planned_apex props = Some m2 ->
  Props.real_base props = Some m3 -> Props.real_apex props = Some m4 ->
  distance (get_mesh_center m1) (get_mesh_center m2) < min_distance
  \/ distance (get_mesh_center m3) (get_mesh_center m4) < min_distance ->
  (exists report,
     Props.result (fst (fst (run_single_implant_execute calc_volume props)))
     = AnalysisText report)
  /\ Props.result (run_multiple_implants_slot calc_volume i props)
     = WarningVeryClose (i + 1).
Proof.
  intros H1 H2 H3 H4 Hclose. split.
  - unfold run_single_implant_execute. rewrite H1, H2, H3, H4. cbn.
    eexists. reflexivity.
  - unfold run_multiple_implants_slot. rewrite H1, H2, H3, H4.
    unfold distance, vector_components in Hclose.
    replace (_ || _) with true; [reflexivity |].
    symmetry. apply orb_true_iff.
    destruct Hclose as [H | H]; [left | right]; now apply Rltb_true_iff.
Qed.

Lemma close_markers_single_versus_batch_witness :
  (exists report,
     Props.result
       (fst (fst (run_single_implant_execute empty_intersection
                    (props_with_markers origin origin real_base real_apex_1))))
     = AnalysisText report)
  /\ Props.result
       (run_multiple_implants_slot empty_intersection 0
          (props_with_markers origin origin real_base real_apex_1))
     = WarningVeryClose (0 + 1).
Proof.
  apply (close_markers_single_versus_batch empty_intersection
           (props_with_markers origin origin real_base real_apex_1)
           (cube_marker origin) (cube_marker origin)
           (cube_marker real_base) (cube_marker real_apex_1));
    try reflexivity.
  left. rewrite cube_marker_center.
  replace (distance origin origin) with 0
    by (symmetry; now apply distance_eq_0_iff).
  unfold min_distance. lra.
Defined.

(** X20: the batch operator always finishes, keeps the number of slots,
    and writes to the slot at position [i] what one turn of its loop
    computes for that position; the markers and radii of the slot are kept
    and its earlier result is always replaced by a non-empty one. *)
Theorem run_multiple_keeps_slots
    (calc_volume : cone_object -> cone_object -> R)
    (slots : list ImplantSlotProperties) :
  snd (run_multiple_implants_execute calc_volume slots) = FINISHED
  /\ List.length (fst (run_multiple_implants_execute calc_volume slots))
     = List.length slots
  /\ forall i slot,
       nth_error slots i = Some slot ->
       exists slot',
         nth_error (fst (run_multiple_implants_execute calc_volume slots)) i
         = Some slot'
         /\ slot' = run_multiple_implants_slot calc_volume i slot
         /\ Props.set_result slot' (Props.result slot) = slot
         /\ Props.result slot' <> EmptyText.
Proof.
  unfold run_multiple_implants_execute. cbn [fst snd].
  split; [reflexivity |].
  split; [apply run_multiple_implants_from_length |].
  intros i slot H. eexists. split.
  - rewrite run_multiple_implants_from_nth, H. reflexivity.
  - cbn. split; [reflexivity |]. split.
    + apply run_multiple_implants_slot_inputs.
    + apply run_multiple_implants_slot_result.
Qed.


Lemma run_multiple_keeps_slots_witness :
  exists slot',
    nth_error
      (fst (run_multiple_implants_execute empty_intersection
              [Props.default; props_with_markers origin origin real_base
                                real_apex_1])) 1
    = Some slot'
    /\ slot'
       = run_multiple_implants_slot empty_intersection 1
           (props_with_markers origin origin real_base real_apex_1)
    /\ Props.set_result slot'
         (Props.result
            (props_with_markers origin origin real_base real_apex_1))
       = props_with_markers origin origin real_base real_apex_1
    /\ Props.result slot' <> EmptyText.
Proof.
  apply (proj2 (proj2 (run_multiple_keeps_slots empty_intersection
                         [Props.default;
                          props_with_markers origin origin real_base
                            real_apex_1]))).
  reflexivity.
Defined.

(** X22: the batch operator never analyses a degenerate implant.  When a
    slot ends up with an analysis, its four markers were selected, both
    pairs of centres are at least 0.1 apart, both frustums were built, and
    the overlap volume of the analysis is the absolute value of the volume
    of their intersection mesh. *)
Theorem run_multiple_analysis_has_frustums
    (calc_volume : cone_object -> cone_object -> R)
    (i : nat) (slot : ImplantSlotProperties) (report : analysis_report) :
  Props.result (run_multiple_implants_slot calc_volume i slot)
  = AnalysisText report ->
  exists m1 m2 m3 m4 planned_obj real_obj,
    Props.planned_base slot = Some m1 /\ Props.planned_apex slot = Some m2
    /\ Props.real_base slot = Some m3 /\ Props.real_apex slot = Some m4
    /\ min_distance <= distance (get_mesh_center m1) (get_mesh_center m2)
    /\ min_distance <= distance (get_mesh_center m3) (get_mesh_center m4)
    /\ create_truncated_cone "PlannedImplantTemp"
         (get_mesh_center m1) (get_mesh_center m2)
         (Props.r_planned_bottom slot) (Props.r_planned_top slot)
       = Some planned_obj
    /\ create_truncated_cone "RealImplantTemp"
         (get_mesh_center m3) (get_mesh_center m4)
         (Props.r_real_bottom slot) (Props.r_real_top slot)
       = Some real_obj
    /\ overlap_vol report = Rabs (calc_volume planned_obj real_obj).
Proof.
  unfold run_multiple_implants_slot.
  destruct (Props.planned_base slot) as [m1 |]; [| cbn; discriminate].
  destruct (Props.planned_apex slot) as [m2 |]; [| cbn; discriminate].
  destruct (Props.real_base slot) as [m3 |]; [| cbn; discriminate].
  destruct (Props.real_apex slot) as [m4 |]; [| cbn; discriminate].
  destruct (_ || _) eqn:E; [cbn; discriminate |].
  apply orb_false_iff in E. destruct E as [Ep Er].
  apply Rltb_false_iff in Ep, Er.
  fold (vector_components (get_mesh_center m1) (get_mesh_center m2)) in Ep.
  fold (distance (get_mesh_center m1) (get_mesh_center m2)) in Ep.
  fold (vector_components (get_mesh_center m3) (get_mesh_center m4)) in Er.
  fold (distance (get_mesh_center m3) (get_mesh_center m4)) in Er.
  cbn [Props.set_result Props.result]. intros H. injection H as <-.
  assert (Dp : 0 < distance (get_mesh_center m1) (get_mesh_center m2))
    by (unfold min_distance in Ep; lra).
  assert (Dr : 0 < distance (get_mesh_center m3) (get_mesh_center m4))
    by (unfold min_distance in Er; lra).
  exists m1, m2, m3, m4. do 2 eexists.
  repeat (split; [reflexivity |]).
  split; [exact Ep |]. split; [exact Er |].
  split; [apply create_truncated_cone_positive_height; exact Dp |].
  split; [apply create_truncated_cone_positive_height; exact Dr |].
  unfold analyze_implant. cbn [overlap_vol].
  rewrite !create_truncated_cone_positive_height by assumption.
  reflexivity.
Qed.

Lemma sample_slot_is_analysed :
  Props.result
    (run_multiple_implants_slot empty_intersection 0
       (props_with_markers origin planned_apex_ok real_base real_apex_2))
  = AnalysisText
      (analyze_implant empty_intersection
         (get_mesh_center (cube_marker origin))
         (get_mesh_center (cube_marker planned_apex_ok))
         (get_mesh_center (cube_marker real_base))
         (get_mesh_center (cube_marker real_apex_2)) 2 2 2 2).
Proof.
  unfold run_multiple_implants_slot, props_with_markers.
  cbn [Props.planned_base Props.planned_apex Props.real_base Props.real_apex].
  replace (Rltb (Vec.norm (Vec.sub (get_mesh_center (cube_marker planned_apex_ok))
                                   (get_mesh_center (cube_marker origin))))
                min_distance) with false.
  2:{ symmetry. apply Rltb_false_iff. rewrite !cube_marker_center.
      replace (Vec.norm (Vec.sub planned_apex_ok origin)) with 1;
        [unfold min_distance; lra |].
      symmetry. unfold Vec.norm. apply sqrt_of_square; [lra |].
      unfold Vec.dot. simpl. ring. }
  replace (Rltb (Vec.norm (Vec.sub (get_mesh_center (cube_marker real_apex_2))
                                   (get_mesh_center (cube_marker real_base))))
                min_distance) with false.
  2:{ symmetry. apply Rltb_false_iff. rewrite !cube_marker_center.
      replace (Vec.norm (Vec.sub real_apex_2 real_base)) with 2;
        [unfold min_distance; lra |].
      symmetry. unfold Vec.norm. apply sqrt_of_square; [lra |].
      unfold Vec.dot. simpl. ring. }
  reflexivity.
Qed.

Lemma run_multiple_analysis_has_frustums_witness :
  exists m1 m2 m3 m4 planned_obj real_obj,
    Some (cube_marker origin) = Some m1
    /\ Some (cube_marker planned_apex_ok) = Some m2
    /\ Some (cube_marker real_base) = Some m3
    /\ Some (cube_marker real_apex_2) = Some m4
    /\ min_distance <= distance (get_mesh_center m1) (get_mesh_center m2)
    /\ min_distance <= distance (get_mesh_center m3) (get_mesh_center m4)
    /\ create_truncated_cone "PlannedImplantTemp"
         (get_mesh_center m1) (get_mesh_center m2) 2 2
       = Some planned_obj
    /\ create_truncated_cone "RealImplantTemp"
         (get_mesh_center m3) (get_mesh_center m4) 2 2
       = Some real_obj
    /\ overlap_vol
         (analyze_implant empty_intersection
            (get_mesh_center (cube_marker origin))
            (get_mesh_center (cube_marker planned_apex_ok))
            (get_mesh_center (cube_marker real_base))
            (get_mesh_center (cube_marker real_apex_2)) 2 2 2 2)
       = Rabs (empty_intersection planned_obj real_obj).
Proof.
  exact (run_multiple_analysis_has_frustums empty_intersection 0
           (props_with_markers origin planned_apex_ok real_base real_apex_2)
           _ sample_slot_is_analysed).
Defined.

(** ** The collection of slots *)

Lemma collection_remove_length (index : nat)
    (implants : list ImplantSlotProperties) :
  (index < List.length implants)%nat ->
  S (List.length (collection_remove index implants)) = List.length implants.
Proof.
  intros H. unfold collection_remove.
  rewrite length_app, firstn_length_le, length_skipn by lia. lia.
Qed.

Lemma collection_remove_before (index j : nat)
    (implants : list ImplantSlotProperties) :
  (j < index)%nat -> (index < List.length implants)%nat ->
  nth_error (collection_remove index implants) j = nth_error implants j.
Proof.
  intros Hj H. unfold collection_remove.
  rewrite nth_error_app1 by (rewrite firstn_length_le; lia).
  rewrite nth_error_firstn.
  apply Nat.ltb_lt in Hj. now rewrite Hj.
Qed.

Lemma collection_remove_after (index j : nat)
    (implants : list ImplantSlotProperties) :
  (index <= j)%nat -> (index < List.length implants)%nat ->
  nth_error (collection_remove index implants) j = nth_error implants (S j).
Proof.
  intros Hj H. unfold collection_remove.
  rewrite nth_error_app2 by (rewrite firstn_length_le; lia).
  rewrite firstn_length_le by lia. rewrite nth_error_skipn.
  f_equal. lia.
Qed.

(** X23: removing at an index that is in range reports the removal with
    the number of the implant, finishes, and takes out exactly that slot:
    one slot fewer, the slots before it stay where they are and the slots
    after it move one position down. *)
Theorem remove_implant_in_range (implant_index : Z)
    (implants : list ImplantSlotProperties) :
  (0 <= implant_index < Z.of_nat (List.length implants))%Z ->
  exists implants',
    remove_implant_execute implant_index implants
    = (implants', [(INFO, RemovedImplant (implant_index + 1)%Z)], FINISHED)
    /\ S (List.length implants') = List.length implants
    /\ (forall j, (j < Z.to_nat implant_index)%nat ->
                  nth_error implants' j = nth_error implants j)
    /\ (forall j, (Z.to_nat implant_index <= j)%nat ->
                  nth_error implants' j = nth_error implants (S j)).
Proof.
  intros [Hlo Hhi]. unfold remove_implant_execute.
  replace (0 <=? implant_index)%Z with true
    by (symmetry; now apply Z.leb_le).
  replace (implant_index <? Z.of_nat (List.length implants))%Z with true
    by (symmetry; now apply Z.ltb_lt).
  cbn [andb]. eexists. split; [reflexivity |].
  assert (Hn : (Z.to_nat implant_index < List.length implants)%nat) by lia.
  split; [now apply collection_remove_length |].
  split; intros j Hj.
  - now apply collection_remove_before.
  - now apply collection_remove_after.
Qed.

Lemma remove_implant_in_range_witness :
  exists implants',
    remove_implant_execute 0
      [Props.default; props_with_markers origin origin real_base real_apex_1]
    = (implants', [(INFO, RemovedImplant (0 + 1)%Z)], FINISHED)
    /\ S (List.length implants')
       = List.length
           [Props.default;
            props_with_markers origin origin real_base real_apex_1]
    /\ (forall j, (j < Z.to_nat 0)%nat ->
                  nth_error implants' j
                  = nth_error
                      [Props.default;
                       props_with_markers origin origin real_base real_apex_1]
                      j)
    /\ (forall j, (Z.to_nat 0 <= j)%nat ->
                  nth_error implants' j
                  = nth_error
                      [Props.default;
                       props_with_markers origin origin real_base real_apex_1]
                      (S j)).
Proof.
  apply (remove_implant_in_range 0). simpl. lia.
Defined.

(** X24: removing at an index that is negative or not below the number of
    slots leaves the collection as it is and reports an error, yet the
    operator still returns FINISHED. *)
Theorem remove_implant_out_of_range (implant_index : Z)
    (implants : list ImplantSlotProperties) :
  (implant_index < 0 \/ Z.of_nat (List.length implants) <= implant_index)%Z ->
  remove_implant_execute implant_index implants
  = (implants, [(ERROR, InvalidImplantIndex implant_index)], FINISHED).
Proof.
  intros H. unfold remove_implant_execute.
  replace ((0 <=? implant_index)%Z
           && (implant_index <? Z.of_nat (List.length implants))%Z)
    with false; [reflexivity |].
  symmetry. apply andb_false_iff.
  destruct H as [H | H]; [left; apply Z.leb_gt | right; apply Z.ltb_ge];
    exact H.
Qed.

Lemma remove_implant_out_of_range_witness :
  remove_implant_execute 1 [Props.default]
  = ([Props.default], [(ERROR, InvalidImplantIndex 1)], FINISHED).
Proof. apply remove_implant_out_of_range. right. simpl. lia. Defined.

(** X25: adding an implant finishes and appends one slot with the default
    values, every earlier slot staying in its place; removing the last
    index right afterwards gives the earlier collection back. *)
Theorem add_implant_appends_default
    (implants : list ImplantSlotProperties) :
  snd (add_implant_execute implants) = FINISHED
  /\ List.length (fst (add_implant_execute implants))
     = S (List.length implants)
  /\ nth_error (fst (add_implant_execute implants)) (List.length implants)
     = Some Props.default
  /\ (forall j, (j < List.length implants)%nat ->
                nth_error (fst (add_implant_execute implants)) j
                = nth_error implants j)
  /\ fst (fst (remove_implant_execute (Z.of_nat (List.length implants))
                 (fst (add_implant_execute implants))))
     = implants.
Proof.
  unfold add_implant_execute, collection_add. cbn [fst snd].
  split; [reflexivity |].
  split; [rewrite length_app; simpl; lia |].
  split.
  { rewrite nth_error_app2 by lia. now rewrite Nat.sub_diag. }
  split.
  { intros j Hj. now apply nth_error_app1. }
  unfold remove_implant_execute.
  replace (0 <=? Z.of_nat (List.length implants))%Z with true
    by (symmetry; apply Z.leb_le; lia).
  replace (Z.of_nat (List.length implants)
           <? Z.of_nat (List.length (implants ++ [Props.default])))%Z
    with true
    by (symmetry; apply Z.ltb_lt; rewrite length_app; simpl; lia).
  cbn [andb fst]. unfold collection_remove. rewrite Nat2Z.id.
  rewrite firstn_app, firstn_all, Nat.sub_diag. simpl firstn.
  rewrite skipn_all2 by (rewrite length_app; simpl; lia).
  now rewrite !app_nil_r.
Qed.

Lemma add_implant_appends_default_witness :
  nth_error (fst (add_implant_execute [Props.default])) 0
  = nth_error [Props.default] 0.
Proof.
  apply (proj1 (proj2 (proj2 (proj2
           (add_implant_appends_default [Props.default]))))).
  simpl. lia.
Defined.

(** X26: [init_properties] fills an empty collection with six default
    slots and leaves any other collection as it is; so it never leaves the
    collection empty, and calling it again changes nothing. *)
Theorem init_properties_fills_once
    (multiple_implants : list ImplantSlotProperties) :
  init_properties [] = repeat Props.default 6
  /\ (multiple_implants <> [] ->
      init_properties multiple_implants = multiple_implants)
  /\ init_properties multiple_implants <> []
  /\ init_properties (init_properties multiple_implants)
     = init_properties multiple_implants.
Proof.
  split; [reflexivity |].
  assert (Hne : multiple_implants <> [] ->
                init_properties multiple_implants = multiple_implants).
  { destruct multiple_implants; [congruence | reflexivity]. }
  split; [exact Hne |].
  destruct multiple_implants as [| slot rest].
  - split; [discriminate | reflexivity].
  - split; [discriminate | reflexivity].
Qed.

Lemma init_properties_fills_once_witness :
  init_properties [Props.default] = [Props.default].
Proof.
  apply (proj1 (proj2 (init_properties_fills_once [Props.default]))).
  discriminate.
Defined.

(** ** Objects left in the scene *)

Lemma filter_keeps_all {A : Type} (f : A -> bool) (l : list A) :
  Forall (fun a => f a = true) l -> filter f l = l.
Proof.
  induction 1 as [| a l Ha _ IH]; simpl; [reflexivity |].
  now rewrite Ha, IH.
Qed.

Lemma filter_other_ids (s : Scene.t) (id : nat) :
  Scene.well_formed s -> (Scene.next_id s <= id)%nat ->
  filter (fun entry => negb (fst entry =? id)%nat) (Scene.objects s)
  = Scene.objects s
  /\ filter (fun i => negb (i =? id)%nat) (Scene.linked s) = Scene.linked s.
Proof.
  intros [Ho Hl] Hid. split; apply filter_keeps_all.
  - eapply Forall_impl; [| exact Ho]. intros e He. cbn beta in *.
    apply negb_true_iff, Nat.eqb_neq. lia.
  - eapply Forall_impl; [| exact Hl]. intros i Hi. cbn beta in *.
    apply negb_true_iff, Nat.eqb_neq. lia.
Qed.

Lemma eqb_succ_l (n : nat) : (S n =? n)%nat = false.
Proof. apply Nat.eqb_neq. lia. Qed.

Lemma eqb_succ_r (n : nat) : (n =? S n)%nat = false.
Proof. apply Nat.eqb_neq. lia. Qed.

Lemma eqb_succ2_l (n : nat) : (S (S n) =? n)%nat = false.
Proof. apply Nat.eqb_neq. lia. Qed.

Lemma eqb_succ2_r (n : nat) : (n =? S (S n))%nat = false.
Proof. apply Nat.eqb_neq. lia. Qed.

Ltac scene_ids :=
  repeat first
    [ progress cbn [filter fst negb app]
    | rewrite Nat.eqb_refl
    | rewrite eqb_succ_l
    | rewrite eqb_succ_r
    | rewrite eqb_succ2_l
    | rewrite eqb_succ2_r
    | rewrite app_nil_r
    | rewrite filter_app ].

Lemma scene_intersection_state
    (calc_volume : cone_object -> cone_object -> R)
    (s : Scene.t) (obj_a obj_b : nat * cone_object) :
  Scene.well_formed s ->
  Scene.boolean_intersection_volume calc_volume s obj_a obj_b
  = (Scene.mk (Scene.objects s) (Scene.linked s) (S (S (S (Scene.next_id s)))),
     boolean_intersection_volume calc_volume (snd obj_a) (snd obj_b)).
Proof.
  intros Hwf.
  destruct (filter_other_ids s (Scene.next_id s) Hwf (le_n _)) as [O1 L1].
  destruct (filter_other_ids s (S (Scene.next_id s)) Hwf) as [O2 L2]; [lia |].
  destruct (filter_other_ids s (S (S (Scene.next_id s))) Hwf) as [O3 L3];
    [lia |].
  unfold Scene.boolean_intersection_volume, Scene.new_object, Scene.link,
    Scene.remove, boolean_intersection_volume.
  cbn [Scene.objects Scene.linked Scene.next_id fst snd].
  f_equal. f_equal.
  - rewrite !filter_app. rewrite O1. scene_ids. rewrite O2. scene_ids.
    rewrite O3. reflexivity.
  - rewrite !filter_app. rewrite L1. scene_ids. rewrite L2. scene_ids.
    rewrite L3. reflexivity.
Qed.

Lemma well_formed_add_linked (s : Scene.t) (obj : cone_object) :
  Scene.well_formed s ->
  Scene.well_formed
    (Scene.link (fst (Scene.new_object s obj)) (snd (Scene.new_object s obj))).
Proof.
  intros [Ho Hl]. unfold Scene.well_formed, Scene.link, Scene.new_object.
  cbn [Scene.objects Scene.linked Scene.next_id fst snd].
  split; apply Forall_app; split.
  - eapply Forall_impl; [| exact Ho]. cbn beta. intros; lia.
  - constructor; [cbn; lia | constructor].
  - eapply Forall_impl; [| exact Hl]. cbn beta. intros; lia.
  - constructor; [lia | constructor].
Qed.

Lemma well_formed_more_ids (s : Scene.t) (n : nat) :
  Scene.well_formed s -> (Scene.next_id s <= n)%nat ->
  Scene.well_formed (Scene.mk (Scene.objects s) (Scene.linked s) n).
Proof.
  intros [Ho Hl] Hn. split; cbn [Scene.objects Scene.linked Scene.next_id].
  - eapply Forall_impl; [| exact Ho]. cbn beta. intros; lia.
  - eapply Forall_impl; [| exact Hl]. cbn beta. intros; lia.
Qed.

(** X27: the intersection step leaves no object behind.  In a scene whose
    identities are all below the next one, the objects that exist and the
    objects that are linked are the same after the call as before it: its
    three temporary copies are removed again.  The value returned is the
    one of the function without the scene. *)
Theorem scene_intersection_restores_objects
    (calc_volume : cone_object -> cone_object -> R)
    (s : Scene.t) (obj_a obj_b : nat * cone_object) :
  Scene.well_formed s ->
  Scene.objects
    (fst (Scene.boolean_intersection_volume calc_volume s obj_a obj_b))
  = Scene.objects s
  /\ Scene.linked
       (fst (Scene.boolean_intersection_volume calc_volume s obj_a obj_b))
     = Scene.linked s
  /\ snd (Scene.boolean_intersection_volume calc_volume s obj_a obj_b)
     = boolean_intersection_volume calc_volume (snd obj_a) (snd obj_b)
  /\ Scene.well_formed
       (fst (Scene.boolean_intersection_volume calc_volume s obj_a obj_b)).
Proof.
  intros Hwf. rewrite scene_intersection_state by exact Hwf.
  cbn [fst snd Scene.objects Scene.linked].
  repeat split; try reflexivity.
  - destruct Hwf as [Ho _]. cbn [Scene.objects Scene.next_id].
    eapply Forall_impl; [| exact Ho]. cbn beta. intros; lia.
  - destruct Hwf as [_ Hl]. cbn [Scene.linked Scene.next_id].
    eapply Forall_impl; [| exact Hl]. cbn beta. intros; lia.
Qed.

Lemma scene_analysis_state
    (calc_volume : cone_object -> cone_object -> R) (s : Scene.t)
    (pb pa rb ra : vec) (r_ptop r_pbot r_rtop r_rbot : R) :
  Scene.well_formed s ->
  snd (Scene.analyze_implant calc_volume s pb pa rb ra
         r_ptop r_pbot r_rtop r_rbot)
  = analyze_implant calc_volume pb pa rb ra r_ptop r_pbot r_rtop r_rbot
  /\ Scene.well_formed
       (fst (Scene.analyze_implant calc_volume s pb pa rb ra
               r_ptop r_pbot r_rtop r_rbot))
  /\ exists added,
       Scene.objects
         (fst (Scene.analyze_implant calc_volume s pb pa rb ra
                 r_ptop r_pbot r_rtop r_rbot))
       = Scene.objects s ++ added
       /\ Scene.linked
            (fst (Scene.analyze_implant calc_volume s pb pa rb ra
                    r_ptop r_pbot r_rtop r_rbot))
          = Scene.linked s ++ map fst added
       /\ map snd added
          = built (create_truncated_cone "PlannedImplantTemp" pb pa
                     r_pbot r_ptop)
            ++ built (create_truncated_cone "RealImplantTemp" rb ra
                        r_rbot r_rtop).
Proof.
  intros Hwf.
  unfold Scene.analyze_implant, Scene.create_truncated_cone, analyze_implant.
  destruct (create_truncated_cone "PlannedImplantTemp" pb pa r_pbot r_ptop)
    as [p |];
    destruct (create_truncated_cone "RealImplantTemp" rb ra r_rbot r_rtop)
      as [r |].
  - pose proof (well_formed_add_linked s p Hwf) as W1.
    pose proof (well_formed_add_linked _ r W1) as W2.
    cbn [Scene.new_object fst snd] in *.
    rewrite scene_intersection_state by exact W2.
    cbn [fst snd Scene.link Scene.objects Scene.linked Scene.next_id] in *.
    split; [reflexivity |]. split.
    + apply (well_formed_more_ids _ _ W2). cbn. lia.
    + exists [(Scene.next_id s, p); (S (Scene.next_id s), r)].
      cbn [map fst snd built app]. rewrite <- !app_assoc. auto.
  - pose proof (well_formed_add_linked s p Hwf) as W1.
    cbn [Scene.new_object Scene.link fst snd Scene.objects Scene.linked
         Scene.next_id] in *.
    split; [reflexivity |]. split; [exact W1 |].
    exists [(Scene.next_id s, p)]. cbn [map fst snd built app]. auto.
  - pose proof (well_formed_add_linked s r Hwf) as W1.
    cbn [Scene.new_object Scene.link fst snd Scene.objects Scene.linked
         Scene.next_id] in *.
    split; [reflexivity |]. split; [exact W1 |].
    exists [(Scene.next_id s, r)]. cbn [map fst snd built app]. auto.
  - cbn [fst snd]. split; [reflexivity |]. split; [exact Hwf |].
    exists []. cbn [map built app]. rewrite !app_nil_r. auto.
Qed.

(** X28: an analysis leaves in the scene exactly the frustums it built.
    The report is the one of [analyze_implant] without the scene; the
    objects that exist afterwards are the earlier ones followed by the
    planned frustum, if it was built, and the real frustum, if it was
    built, and these are linked to the collection; nothing else is added
    and nothing is removed. *)
Theorem scene_analysis_leaves_frustums
    (calc_volume : cone_object -> cone_object -> R) (s : Scene.t)
    (pb pa rb ra : vec) (r_ptop r_pbot r_rtop r_rbot : R) :
  Scene.well_formed s ->
  snd (Scene.analyze_implant calc_volume s pb pa rb ra
         r_ptop r_pbot r_rtop r_rbot)
  = analyze_implant calc_volume pb pa rb ra r_ptop r_pbot r_rtop r_rbot
  /\ Scene.well_formed
       (fst (Scene.analyze_implant calc_volume s pb pa rb ra
               r_ptop r_pbot r_rtop r_rbot))
  /\ exists added,
       Scene.objects
         (fst (Scene.analyze_implant calc_volume s pb pa rb ra
                 r_ptop r_pbot r_rtop r_rbot))
       = Scene.objects s ++ added
       /\ Scene.linked
            (fst (Scene.analyze_implant calc_volume s pb pa rb ra
                    r_ptop r_pbot r_rtop r_rbot))
          = Scene.linked s ++ map fst added
       /\ map snd added
          = built (create_truncated_cone "PlannedImplantTemp" pb pa
                     r_pbot r_ptop)
            ++ built (create_truncated_cone "RealImplantTemp" rb ra
                        r_rbot r_rtop).
Proof. apply scene_analysis_state. Qed.

Lemma well_formed_empty : Scene.well_formed Scene.empty.
Proof. split; constructor. Qed.

Lemma scene_intersection_restores_objects_witness :
  Scene.objects
    (fst (Scene.boolean_intersection_volume empty_intersection Scene.empty
            (0%nat, mkCone "a" 64 2 2 10 origin Unrotated)
            (1%nat, mkCone "b" 64 2 2 10 real_base Unrotated)))
  = Scene.objects Scene.empty
  /\ Scene.linked
       (fst (Scene.boolean_intersection_volume empty_intersection Scene.empty
               (0%nat, mkCone "a" 64 2 2 10 origin Unrotated)
               (1%nat, mkCone "b" 64 2 2 10 real_base Unrotated)))
     = Scene.linked Scene.empty
  /\ snd (Scene.boolean_intersection_volume empty_intersection Scene.empty
            (0%nat, mkCone "a" 64 2 2 10 origin Unrotated)
            (1%nat, mkCone "b" 64 2 2 10 real_base Unrotated))
     = boolean_intersection_volume empty_intersection
         (snd (0%nat, mkCone "a" 64 2 2 10 origin Unrotated))
         (snd (1%nat, mkCone "b" 64 2 2 10 real_base Unrotated))
  /\ Scene.well_formed
       (fst (Scene.boolean_intersection_volume empty_intersection Scene.empty
               (0%nat, mkCone "a" 64 2 2 10 origin Unrotated)
               (1%nat, mkCone "b" 64 2 2 10 real_base Unrotated))).
Proof.
  apply scene_intersection_restores_objects. exact well_formed_empty.
Defined.

Lemma scene_analysis_leaves_frustums_witness :
  snd (Scene.analyze_implant empty_intersection Scene.empty
         origin origin real_base real_apex_1 2 2 2 2)
  = analyze_implant empty_intersection origin origin real_base real_apex_1
      2 2 2 2
  /\ Scene.well_formed
       (fst (Scene.analyze_implant empty_intersection Scene.empty
               origin origin real_base real_apex_1 2 2 2 2))
  /\ exists added,
       Scene.objects
         (fst (Scene.analyze_implant empty_intersection Scene.empty
                 origin origin real_base real_apex_1 2 2 2 2))
       = Scene.objects Scene.empty ++ added
       /\ Scene.linked
            (fst (Scene.analyze_implant empty_intersection Scene.empty
                    origin origin real_base real_apex_1 2 2 2 2))
          = Scene.linked Scene.empty ++ map fst added
       /\ map snd added
          = built (create_truncated_cone "PlannedImplantTemp" origin origin
                     2 2)
            ++ built (create_truncated_cone "RealImplantTemp" real_base
                        real_apex_1 2 2).
Proof.
  apply scene_analysis_leaves_frustums. exact well_formed_empty.
Defined.


